(** * eve-sso: the SingleSignOn client of [src/index.ts]

    A shallow embedding of the class [SingleSignOn] together with the
    library functions it calls, and the properties of the redirect URL and
    of the two token requests.

    Strings.  A JavaScript string is modelled by the sequence of bytes of
    its UTF-8 encoding ([string], one [ascii] per byte).  The functions the
    class applies to strings either look for the ASCII space only ([split],
    [join]) or work on the UTF-8 bytes themselves (percent-encoding,
    Base64), so this is the view the code has of a well-formed string.
    A string with an unpaired surrogate has no UTF-8 encoding:
    [querystring.escape] and [encodeURIComponent] throw on it and
    [Buffer.from] replaces the surrogate.  The functions below are the
    code on well-formed strings; [Text], further down, adds the other
    strings for the token methods and for the credential.

    Collaborators.  [querystring.stringify], [formUrlEncoded] and Base64
    are written out, since the claims are about the text they produce.
    [url.parse] and the argument check of [bent] are parameters of the
    constructor: the class only stores what the first returns and lets an
    exception of either escape. *)

From Stdlib Require Import String Ascii List Bool NArith ZArith Lia.
Import ListNotations.

Local Open Scope string_scope.
Local Open Scope bool_scope.

(* ================================================================== *)
(** ** JavaScript primitives used by the class *)

Module Js.

(** [if (s)] on a string: the empty string is the only falsy one. *)
Definition truthy (s : string) : bool := negb (s =? "").

(** [String.prototype.split] with a one-character separator: every
    occurrence of the separator ends a piece, so [n] separators give
    [n + 1] pieces (possibly empty ones). *)
Fixpoint split (sep : ascii) (s : string) : list string :=
  match s with
  | EmptyString => [""]
  | String c s' =>
      if Ascii.eqb c sep then "" :: split sep s'
      else match split sep s' with
           | piece :: pieces => String c piece :: pieces
           | [] => [String c ""]
           end
  end.

(** [Array.prototype.join] on an array of strings. *)
Definition join (sep : string) (a : list string) : string :=
  String.concat sep a.

(** [contains c s]: the byte [c] occurs in [s]. *)
Fixpoint contains (c : ascii) (s : string) : bool :=
  match s with
  | EmptyString => false
  | String d s' => Ascii.eqb d c || contains c s'
  end.

(** [String.prototype.startsWith], returning what follows the prefix. *)
Fixpoint strip_prefix (p s : string) : option string :=
  match p, s with
  | EmptyString, _ => Some s
  | String a p', String b s' =>
      if Ascii.eqb a b then strip_prefix p' s' else None
  | String _ _, EmptyString => None
  end.

(** An object literal with string values, as the ordered list of its own
    properties.  [set] is the assignment [o.k = v]: an existing property
    keeps its place, a new one goes last. *)
Definition object := list (string * string).

Fixpoint set (k v : string) (o : object) : object :=
  match o with
  | [] => [(k, v)]
  | (k', v') :: o' =>
      if k' =? k then (k', v) :: o' else (k', v') :: set k v o'
  end.

Fixpoint get (k : string) (o : object) : option string :=
  match o with
  | [] => None
  | (k', v) :: o' => if k' =? k then Some v else get k o'
  end.

End Js.

(* ================================================================== *)
(** ** Percent-encoding, shared by the two serializers *)

Module Percent.

Definition in_range (lo hi : nat) (c : ascii) : bool :=
  let n := nat_of_ascii c in Nat.leb lo n && Nat.leb n hi.

Definition alphanumeric (c : ascii) : bool :=
  in_range 48 57 c || in_range 65 90 c || in_range 97 122 c.

Definition hex_digit (n : N) : ascii :=
  match n with
  | 0 => "0" | 1 => "1" | 2 => "2" | 3 => "3" | 4 => "4" | 5 => "5"
  | 6 => "6" | 7 => "7" | 8 => "8" | 9 => "9" | 10 => "A" | 11 => "B"
  | 12 => "C" | 13 => "D" | 14 => "E" | _ => "F"
  end%N%char.

(** The three bytes [%XX] of a byte, hexadecimal digits in upper case. *)
Definition triplet (c : ascii) : string :=
  let n := N_of_ascii c in
  String "%" (String (hex_digit (n / 16)) (String (hex_digit (n mod 16)) "")).

(** Bytes for which [keep] holds stay, the others become triplets. *)
Fixpoint encode (keep : ascii -> bool) (s : string) : string :=
  match s with
  | EmptyString => ""
  | String c s' =>
      if keep c then String c (encode keep s')
      else triplet c ++ encode keep s'
  end.

Definition hex_value (c : ascii) : option N :=
  let n := N_of_ascii c in
  if in_range 48 57 c then Some (n - 48)%N
  else if in_range 65 70 c then Some (n - 55)%N
  else if in_range 97 102 c then Some (n - 87)%N
  else None.

(** Percent-decoding: a well-formed triplet becomes its byte, any other
    byte stands for itself. *)
Fixpoint decode (s : string) : string :=
  match s with
  | EmptyString => ""
  | String c s' =>
      let literal := String c (decode s') in
      if Ascii.eqb c "%" then
        match s' with
        | String h (String l rest) =>
            match hex_value h, hex_value l with
            | Some a, Some b => String (ascii_of_N (16 * a + b)) (decode rest)
            | _, _ => literal
            end
        | _ => literal
        end
      else literal
  end.

End Percent.

(* ================================================================== *)
(** ** Flat objects as [key=value&key=value] text

    Both serializers the class uses write a flat object with string values
    the same way and differ in how a key or value is encoded. *)

Module Fields.

Definition field (enc : string -> string) (p : string * string) : string :=
  enc (fst p) ++ "=" ++ enc (snd p).

(** [key=value] fields in property order, joined with [&]. *)
Definition serialize (enc : string -> string) (obj : Js.object) : string :=
  Js.join "&" (map (field enc) obj).

(** [cut sep s]: what precedes the first [sep] in [s], and what follows. *)
Fixpoint cut (sep : ascii) (s : string) : string * string :=
  match s with
  | EmptyString => ("", "")
  | String c s' =>
      if Ascii.eqb c sep then ("", s')
      else let (k, v) := cut sep s' in (String c k, v)
  end.

Definition read_field (dec : string -> string) (f : string) : string * string :=
  let (k, v) := cut "=" f in (dec k, dec v).

(** Reading the text back, as its receiver does: cut at every [&], cut
    each field at its first [=], decode both sides. *)
Definition deserialize (dec : string -> string) (text : string) : Js.object :=
  if text =? "" then [] else map (read_field dec) (Js.split "&" text).

End Fields.

(* ================================================================== *)
(** ** [querystring.stringify] (Node.js) *)

Module QueryString.

(** [querystring.escape]: letters, digits and [! ' ( ) * - . _ ~] are
    left alone, every other byte is percent-encoded. *)
Definition unreserved (c : ascii) : bool :=
  Percent.alphanumeric c || Js.contains c "!'()*-._~".

Definition escape (s : string) : string := Percent.encode unreserved s.

(** [stringify(obj)] with the default separators, for an object whose
    values are strings. *)
Definition stringify (obj : Js.object) : string :=
  Fields.serialize escape obj.

(** The query string read back, values percent-decoded. *)
Definition parse (qs : string) : Js.object :=
  Fields.deserialize Percent.decode qs.

End QueryString.

(* ================================================================== *)
(** ** [formUrlEncoded] (package form-urlencoded) *)

Module FormUrlEncoded.

(** The package's [encode] on a well-formed string:
    [encodeURIComponent], then a space becomes [+] and the bytes
    [! ' ( ) ~ *] that [encodeURIComponent] keeps are percent-encoded as
    well; letters, digits and [- _ .] remain. *)
Definition unreserved (c : ascii) : bool :=
  Percent.alphanumeric c || Js.contains c "-_.".

Fixpoint encode (s : string) : string :=
  match s with
  | EmptyString => ""
  | String c s' =>
      if Ascii.eqb c " " then String "+" (encode s')
      else if unreserved c then String c (encode s')
      else Percent.triplet c ++ encode s'
  end.

(** [formUrlEncoded(data)] for a flat object with string values. *)
Definition formUrlEncoded (data : Js.object) : string :=
  Fields.serialize encode data.

(** Form decoding: [+] is a space, then as percent-decoding. *)
Fixpoint decode (s : string) : string :=
  match s with
  | EmptyString => ""
  | String c s' =>
      let literal := String c (decode s') in
      if Ascii.eqb c "+" then String " " (decode s')
      else if Ascii.eqb c "%" then
        match s' with
        | String h (String l rest) =>
            match Percent.hex_value h, Percent.hex_value l with
            | Some a, Some b => String (ascii_of_N (16 * a + b)) (decode rest)
            | _, _ => literal
            end
        | _ => literal
        end
      else literal
  end.

(** The body read back, as the token endpoint does. *)
Definition parse (body : string) : Js.object :=
  Fields.deserialize decode body.

End FormUrlEncoded.

(* ================================================================== *)
(** ** [Buffer.from(s).toString('base64')]

    [encode] is [toString('base64')] on the bytes of the buffer; for a
    well-formed [s] the buffer holds the UTF-8 bytes of [s]. *)

Module Base64.

Definition alphabet : string :=
  "ABCDEFGHIJKLMNOPQRSTUVWXYZabcdefghijklmnopqrstuvwxyz0123456789+/".

Definition digit (n : N) : ascii :=
  match String.get (N.to_nat n) alphabet with
  | Some c => c
  | None => "="%char
  end.

(** The [i]-th six-bit group (from the left) of a 24-bit word. *)
Definition sextet (w : N) (i : N) : ascii :=
  digit (N.land (N.shiftr w (18 - 6 * i)) 63).

Definition word (a b c : ascii) : N :=
  (N_of_ascii a * 65536 + N_of_ascii b * 256 + N_of_ascii c)%N.

(** Three bytes give four digits; one or two trailing bytes give two or
    three digits and [=] padding (RFC 4648). *)
Fixpoint encode (s : string) : string :=
  match s with
  | EmptyString => ""
  | String a EmptyString =>
      let w := word a zero zero in
      String (sextet w 0) (String (sextet w 1) "==")
  | String a (String b EmptyString) =>
      let w := word a b zero in
      String (sextet w 0) (String (sextet w 1) (String (sextet w 2) "="))
  | String a (String b (String c rest)) =>
      let w := word a b c in
      String (sextet w 0) (String (sextet w 1)
        (String (sextet w 2) (String (sextet w 3) (encode rest))))
  end.

End Base64.

(* ================================================================== *)
(** ** Results, promises and the HTTP collaborator *)

(** A thrown JavaScript value. *)
Inductive Exception : Type := Thrown (message : string).

(** The outcome of code that may throw. *)
Inductive Result (A : Type) : Type :=
| Ok (a : A)
| Throw (e : Exception).

Arguments Ok {A} a.
Arguments Throw {A} e.

Definition bind {A B : Type} (r : Result A) (k : A -> Result B) : Result B :=
  match r with
  | Ok a => k a
  | Throw e => Throw e
  end.

Notation "x <- r ;; k" := (bind r (fun x => k))
  (at level 61, r at next level, right associativity).

(** The parsed JSON body of a response, identified by its text; the class
    hands it on unread. *)
Inductive Json : Type := JsonValue (text : string).

(** What [bent(...)] returns: a function that, called with a path, a
    body and headers, sends [method] to [baseurl + path] and decodes the
    response as [encoding] ([None]: no encoding was given). *)
Record RequestFunction : Type := {
  baseurl : string;
  encoding : option string;
  method : string
}.

(** [bent] tells its string arguments apart by their shape, not by their
    position: a string that is its own upper case is the method, one
    that starts with [http:] or [https:] is the base URL, one of [json],
    [buffer], [string] is the encoding, and any other is refused.  So an
    argument that was accepted and is neither a base URL nor an encoding
    is the method. *)
Inductive ArgumentKind : Type := BaseUrl | Encoding | Method.

Definition is_base_url (arg : string) : bool :=
  String.prefix "http:" arg || String.prefix "https:" arg.

Definition is_encoding (arg : string) : bool :=
  (arg =? "json") || (arg =? "buffer") || (arg =? "string").

Definition argument_kind (arg : string) : ArgumentKind :=
  if is_base_url arg then BaseUrl
  else if is_encoding arg then Encoding
  else Method.

(** One step of [args.forEach]: the argument sets the variable of its
    kind. *)
Definition configure (f : RequestFunction) (arg : string) : RequestFunction :=
  match argument_kind arg with
  | BaseUrl => {| baseurl := arg; encoding := encoding f; method := method f |}
  | Encoding => {| baseurl := baseurl f; encoding := Some arg; method := method f |}
  | Method => {| baseurl := baseurl f; encoding := encoding f; method := arg |}
  end.

(** Before the arguments are read: no base URL, no encoding, and [GET]
    for want of a method. *)
Definition unconfigured : RequestFunction :=
  {| baseurl := ""; encoding := None; method := "GET" |}.

(** A header value; [None] is JavaScript's [null]. *)
Definition Headers := list (string * option string).

(** One call of a request function. *)
Record Call : Type := {
  call_function : RequestFunction;
  call_path : string;
  call_body : string;
  call_headers : Headers
}.

Definition call_method (c : Call) : string := method (call_function c).
Definition call_url (c : Call) : string := baseurl (call_function c) ++ call_path c.

(** An [async] method: it settles, or it awaits a call of the request
    function and goes on with what that promise settles to. *)
Inductive Async (A : Type) : Type :=
| Settled (r : Result A)
| Await (c : Call) (k : Result Json -> Async A).

Arguments Settled {A} r.
Arguments Await {A} c k.

(** [return f(path, body, headers)] in an [async] method: the promise
    returned adopts the settlement of the call. *)
Definition invoke (f : RequestFunction) (path body : string) (headers : Headers)
  : Async Json :=
  Await {| call_function := f; call_path := path;
           call_body := body; call_headers := headers |}
        (fun r => Settled r).

(** Running an [async] method against a network that answers each call:
    what it settles to and the calls it made, in order. *)
Fixpoint run {A : Type} (network : Call -> Result Json) (p : Async A)
  : Result A * list Call :=
  match p with
  | Settled r => (r, [])
  | Await c k => let (r, calls) := run network (k (network c)) in (r, c :: calls)
  end.

Definition calls {A : Type} (network : Call -> Result Json) (p : Async A) : list Call :=
  snd (run network p).

Definition outcome {A : Type} (network : Call -> Result Json) (p : Async A) : Result A :=
  fst (run network p).

(* ================================================================== *)
(** ** The class [SingleSignOn] *)

(** [scopes?: string | string[]] *)
Inductive Scopes : Type :=
| ScopeString (s : string)
| ScopeArray (a : list string).

(** [if (scopes)]: an array is truthy even when empty, a string when it
    is not empty. *)
Definition truthy_scopes (scopes : Scopes) : bool :=
  match scopes with
  | ScopeString s => Js.truthy s
  | ScopeArray _ => true
  end.

(** The value of an optional argument or property when [if (x)] takes
    its then-branch; [None] when it takes the other one ([x] is
    [undefined] or falsy). *)
Definition when_truthy {A : Type} (truthy : A -> bool) (x : option A) : option A :=
  match x with
  | Some a => if truthy a then Some a else None
  | None => None
  end.

(** [x || d] for an optional string. *)
Definition or_else (x : option string) (d : string) : string :=
  match when_truthy Js.truthy x with
  | Some s => s
  | None => d
  end.

(** [Array.isArray(scopes) ? scopes.join(' ') : scopes] *)
Definition scope_text (scopes : Scopes) : string :=
  match scopes with
  | ScopeArray a => Js.join " " a
  | ScopeString s => s
  end.

Module SingleSignOnOptions.
Record t : Type := {
  endpoint : option string;
  userAgent : option string;
  scopes : option Scopes
}.

(** [{}], the default of the constructor's [opts]. *)
Definition empty : t :=
  {| endpoint := None; userAgent := None; scopes := None |}.
End SingleSignOnOptions.

(** An instance: the five public fields and the four private ones. *)
Record SingleSignOn : Type := {
  clientId : string;
  callbackUri : string;
  endpoint : string;
  userAgent : string;
  scopes : option (list string);
  secretKey : string;
  authorization : string;
  host : option string;
  request : RequestFunction
}.

Section Class.

(** [name], [version] and [homepage] of [../package], and
    [process.version]: constants of the installation. *)
Variables name version homepage process_version : string.

(** [parse(s).hostname] of Node's [url] module: a string, or [null]
    when [parse] reads no host in [s]; [parse] itself may throw. *)
Variable url_parse_hostname : string -> Result (option string).

(** [bent] checks its arguments when the request function is made and
    throws on those it refuses (a string of no kind, a second method);
    which strings it refuses is left open ([None]: accepted), since the
    test for a method is [arg.toUpperCase() === arg]. *)
Variable bent_refuses : string -> string -> string -> option Exception.

(** [bent(first, second, third)] with three strings: refused, or the
    request function the three arguments configure, read in order. *)
Definition bent (first second third : string) : Result RequestFunction :=
  match bent_refuses first second third with
  | Some e => Throw e
  | None => Ok (fold_left configure [first; second; third] unconfigured)
  end.

Definition constructor (clientId secretKey callbackUri : string)
    (opts : SingleSignOnOptions.t) : Result SingleSignOn :=
  let endpoint :=
    or_else (SingleSignOnOptions.endpoint opts) "https://login.eveonline.com" in
  let userAgent :=
    or_else (SingleSignOnOptions.userAgent opts)
      (name ++ "@" ++ version ++ " - nodejs@" ++ process_version
            ++ " - " ++ homepage) in
  let scopes :=
    match when_truthy truthy_scopes (SingleSignOnOptions.scopes opts) with
    | Some (ScopeString s) => Some (Js.split " " s)
    | Some (ScopeArray a) => Some a
    | None => None
    end in
  let authorization := Base64.encode (clientId ++ ":" ++ secretKey) in
  host <- url_parse_hostname endpoint ;;
  request <- bent endpoint "json" "POST" ;;
  Ok {| clientId := clientId;
        callbackUri := callbackUri;
        endpoint := endpoint;
        userAgent := userAgent;
        scopes := scopes;
        secretKey := secretKey;
        authorization := authorization;
        host := host;
        request := request |}.

End Class.

(** The [scope] local of [getRedirectUrl]. *)
Definition redirect_scope (this : SingleSignOn) : option Scopes -> string :=
  let this_scopes := this.(scopes) in
  fun scopes =>
    match when_truthy truthy_scopes scopes with
    | Some given => scope_text given
    | None =>
        match this_scopes with
        | Some defaults => Js.join " " defaults
        | None => ""
        end
    end.

(** The [query] object of [getRedirectUrl], when the method returns. *)
Definition redirect_query (this : SingleSignOn)
    (state : option string) (scopes : option Scopes) : Js.object :=
  let query :=
    [ ("response_type", "code");
      ("redirect_uri", this.(callbackUri));
      ("client_id", this.(clientId));
      ("scope", redirect_scope this scopes) ] in
  match when_truthy Js.truthy state with
  | Some given => Js.set "state" given query
  | None => query
  end.

Definition getRedirectUrl (this : SingleSignOn)
    (state : option string) (scopes : option Scopes) : string :=
  this.(endpoint) ++ "/v2/oauth/authorize?"
    ++ QueryString.stringify (redirect_query this state scopes).

Definition getAccessToken (this : SingleSignOn) (code : string) : Async Json :=
  let payload := [ ("grant_type", "authorization_code"); ("code", code) ] in
  invoke this.(request) "/v2/oauth/token"
    (FormUrlEncoded.formUrlEncoded payload)
    [ ("Host", this.(host));
      ("Authorization", Some ("Basic " ++ this.(authorization)));
      ("Content-Type", Some "application/x-www-form-urlencoded");
      ("User-Agent", Some this.(userAgent)) ].

(** The [payload] object of [refreshToken], when it is serialized. *)
Definition refresh_payload (refreshToken : string) (scopes : option Scopes)
  : Js.object :=
  let payload :=
    [ ("grant_type", "refresh_token"); ("refresh_token", refreshToken) ] in
  match when_truthy truthy_scopes scopes with
  | Some given => Js.set "scope" (scope_text given) payload
  | None => payload
  end.

Definition refreshToken (this : SingleSignOn)
    (refreshToken : string) (scopes : option Scopes) : Async Json :=
  invoke this.(request) "/v2/oauth/token"
    (FormUrlEncoded.formUrlEncoded (refresh_payload refreshToken scopes))
    [ ("Host", this.(host));
      ("Authorization", Some ("Basic " ++ this.(authorization)));
      ("Content-Type", Some "application/x-www-form-urlencoded");
      ("User-Agent", Some this.(userAgent)) ].

(** What a receiver reads in a redirect URL of [this]: the query string
    is what follows [<endpoint>/v2/oauth/authorize?], and a parameter is
    looked up in the query string read back. *)
Definition url_query (this : SingleSignOn) (url : string) : option string :=
  Js.strip_prefix (this.(endpoint) ++ "/v2/oauth/authorize?") url.

Definition url_param (this : SingleSignOn) (key url : string) : option string :=
  match url_query this url with
  | Some qs => Js.get key (QueryString.parse qs)
  | None => None
  end.

(** What the token endpoint reads in a call: a field of the body read
    back, and a header by name ([Some None] is a header sent as [null]). *)
Definition body_field (key : string) (c : Call) : option string :=
  Js.get key (FormUrlEncoded.parse (call_body c)).

Fixpoint header (name : string) (h : Headers) : option (option string) :=
  match h with
  | [] => None
  | (n, v) :: h' => if n =? name then Some v else header name h'
  end.

(** A call of one of the two token methods, with its arguments. *)
Inductive TokenCall : Type :=
| AccessToken (code : string)
| Refresh (refreshToken : string) (scopes : option Scopes).

Definition perform (this : SingleSignOn) (t : TokenCall) : Async Json :=
  match t with
  | AccessToken code => getAccessToken this code
  | Refresh token scopes => refreshToken this token scopes
  end.

(** A client with construction-time default scopes: what
    [new SingleSignOn("abc", "xyz", "https://app.example/cb",
    { scopes: ["publicData"], userAgent: "eve-sso" })] is once [parse] has
    read the host of the default endpoint and [bent] has accepted it. *)
Definition client_with_defaults : SingleSignOn :=
  {| clientId := "abc";
     callbackUri := "https://app.example/cb";
     endpoint := "https://login.eveonline.com";
     userAgent := "eve-sso";
     scopes := Some ["publicData"];
     secretKey := "xyz";
     authorization := "YWJjOnh5eg==";
     host := Some "login.eveonline.com";
     request := {| baseurl := "https://login.eveonline.com";
                   encoding := Some "json"; method := "POST" |} |}.

(* ================================================================== *)
(** ** Strings with an unpaired surrogate *)

(** A JavaScript string as a caller may pass it.  A well-formed one is
    given by its UTF-8 bytes, as everywhere above.  One with an unpaired
    surrogate has no UTF-8 encoding; it is given by the UTF-8 bytes of
    the string with U+FFFD in place of each unpaired surrogate, which is
    what [Buffer.from] makes of it, while [encodeURIComponent] (inside
    [formUrlEncoded]) throws [URIError] on it whatever else it holds. *)
Inductive Text : Type :=
| WellFormed (utf8 : string)
| IllFormed (replaced : string).

(** The bytes of [Buffer.from(t)]. *)
Definition Buffer_from (t : Text) : string :=
  match t with
  | WellFormed utf8 => utf8
  | IllFormed replaced => replaced
  end.

(** The UTF-8 bytes of [t], when it has them. *)
Definition utf8_of (t : Text) : option string :=
  match t with
  | WellFormed utf8 => Some utf8
  | IllFormed _ => None
  end.

(** Line 47 for any two strings: the template string puts a colon
    between them, so a surrogate unpaired in either stays unpaired, and
    [Buffer.from] of the whole is the two buffers around a colon. *)
Definition basic_credential (clientId secretKey : Text) : string :=
  Base64.encode (Buffer_from clientId ++ ":" ++ Buffer_from secretKey).

(** [scopes?: string | string[]] for any strings. *)
Inductive TextScopes : Type :=
| TextScopeString (s : Text)
| TextScopeArray (a : list Text).

Fixpoint all_utf8 (a : list Text) : option (list string) :=
  match a with
  | [] => Some []
  | t :: a' =>
      match utf8_of t, all_utf8 a' with
      | Some s, Some l => Some (s :: l)
      | _, _ => None
      end
  end.

Definition scopes_utf8 (scopes : TextScopes) : option Scopes :=
  match scopes with
  | TextScopeString s => option_map ScopeString (utf8_of s)
  | TextScopeArray a => option_map ScopeArray (all_utf8 a)
  end.

(** A call of one of the two token methods with any strings. *)
Inductive TextCall : Type :=
| AccessTokenOf (code : Text)
| RefreshOf (refreshToken : Text) (scopes : option TextScopes).

(** The call on UTF-8 bytes, when every argument is well-formed.  A
    scopes argument that is not well-formed is truthy (a sequence, or a
    string that is not empty), so it is encoded. *)
Definition call_utf8 (t : TextCall) : option TokenCall :=
  match t with
  | AccessTokenOf code => option_map AccessToken (utf8_of code)
  | RefreshOf token scopes =>
      match utf8_of token, scopes with
      | Some token', None => Some (Refresh token' None)
      | Some token', Some given =>
          option_map (fun given' => Refresh token' (Some given')) (scopes_utf8 given)
      | None, _ => None
      end
  end.

Definition URIError : Exception := Thrown "URIError: URI malformed".

(** A token method on any strings.  [formUrlEncoded(payload)] is
    evaluated before [this.#request] is called: on an argument with an
    unpaired surrogate it throws, the promise of the [async] method is
    rejected with that error and no call is made. *)
Definition perform_text (this : SingleSignOn) (t : TextCall) : Async Json :=
  match call_utf8 t with
  | Some t' => perform this t'
  | None => Settled (Throw URIError)
  end.

(* ================================================================== *)
(** ** Reading the produced text: bytes, and Base64 back *)

Module Bytes.

(** Every byte of [s] satisfies [p]. *)
Fixpoint all (p : ascii -> bool) (s : string) : bool :=
  match s with
  | EmptyString => true
  | String c s' => p c && all p s'
  end.

(** The number of occurrences of [c] in [s]. *)
Fixpoint count (c : ascii) (s : string) : nat :=
  match s with
  | EmptyString => 0
  | String d s' => if Ascii.eqb d c then S (count c s') else count c s'
  end.

(** The bytes a query string written by [querystring.stringify] may
    have: the unreserved ones, [%] of a triplet, and the separators. *)
Definition query_byte (c : ascii) : bool :=
  QueryString.unreserved c || Js.contains c "%&=".

(** The bytes a body written by [formUrlEncoded] may have. *)
Definition form_byte (c : ascii) : bool :=
  FormUrlEncoded.unreserved c || Js.contains c "+%&=".

(** The bytes of padded Base64 text. *)
Definition base64_byte (c : ascii) : bool :=
  Percent.alphanumeric c || Js.contains c "+/=".

End Bytes.

Module Base64Decoding.

Fixpoint index_of (c : ascii) (s : string) : option N :=
  match s with
  | EmptyString => None
  | String d s' =>
      if Ascii.eqb d c then Some 0%N else option_map N.succ (index_of c s')
  end.

(** The six bits a Base64 digit stands for. *)
Definition value (c : ascii) : option N := index_of c Base64.alphabet.

(** The low eight bits of [n], as a byte. *)
Definition byte (n : N) : ascii := ascii_of_N (n mod 256).

(** The six bits of [w] from bit [k] up, as a quotient and a remainder. *)
Definition six (w k : N) : N := ((w / 2 ^ k) mod 64)%N.

(** Decoding of padded Base64 (RFC 4648): four digits give three bytes;
    a last group [xy==] gives one byte and [xyz=] two; anything else is
    refused. *)
Fixpoint decode (s : string) : option string :=
  match s with
  | EmptyString => Some ""
  | String a (String b (String c (String d rest))) =>
      match value a, value b with
      | Some x, Some y =>
          let first := byte (x * 4 + y / 16) in
          if Ascii.eqb d "=" then
            match rest with
            | EmptyString =>
                if Ascii.eqb c "=" then Some (String first "")
                else match value c with
                     | Some z =>
                         Some (String first (String (byte (y * 16 + z / 4)) ""))
                     | None => None
                     end
            | String _ _ => None
            end
          else
            match value c, value d, decode rest with
            | Some z, Some w, Some tail =>
                Some (String first
                        (String (byte (y * 16 + z / 4))
                           (String (byte (z * 64 + w)) tail)))
            | _, _, _ => None
            end
      | _, _ => None
      end
  | _ => None
  end.

End Base64Decoding.

(* ================================================================== *)
(** * Facts about the library functions *)

Module JsFacts.

Example split_on_every_space :
  Js.split " " "a  b" = ["a"; ""; "b"] /\ Js.split " " " " = [""; ""].
Proof. split; reflexivity. Qed.

Lemma split_not_nil (sep : ascii) (s : string) : Js.split sep s <> [].
Proof.
  destruct s as [| c s]; simpl; [discriminate |].
  destruct (Ascii.eqb c sep); [discriminate |].
  destruct (Js.split sep s); discriminate.
Qed.

Lemma concat_cons_char (sep : string) (c : ascii) (p : string) (ps : list string) :
  String.concat sep (String c p :: ps) = String c (String.concat sep (p :: ps)).
Proof. destruct ps; reflexivity. Qed.

Lemma concat_cons_cons (sep x y : string) (l : list string) :
  String.concat sep (x :: y :: l) = x ++ sep ++ String.concat sep (y :: l).
Proof. reflexivity. Qed.

(** Joining the pieces of a split with the separator gives the string
    back. *)
Lemma join_split (sep : ascii) (s : string) :
  Js.join (String sep "") (Js.split sep s) = s.
Proof.
  unfold Js.join.
  induction s as [| c s IH]; [reflexivity |].
  simpl Js.split.
  destruct (Ascii.eqb_spec c sep) as [-> | _].
  - pose proof (split_not_nil sep s) as Hne.
    destruct (Js.split sep s) as [| p ps]; [contradiction |].
    rewrite concat_cons_cons, IH. reflexivity.
  - pose proof (split_not_nil sep s) as Hne.
    destruct (Js.split sep s) as [| p ps]; [contradiction |].
    rewrite concat_cons_char, IH. reflexivity.
Qed.

Lemma contains_app (c : ascii) (a b : string) :
  Js.contains c (a ++ b) = Js.contains c a || Js.contains c b.
Proof.
  induction a as [| d a IH]; simpl; [reflexivity |].
  rewrite IH. apply orb_assoc.
Qed.

Lemma split_without (sep : ascii) (s : string) :
  Js.contains sep s = false -> Js.split sep s = [s].
Proof.
  induction s as [| c s IH]; simpl; [reflexivity |].
  intros H. apply orb_false_elim in H as [Hc Hs].
  rewrite Hc, (IH Hs). reflexivity.
Qed.

Lemma split_app (sep : ascii) (a b : string) :
  Js.contains sep a = false ->
  Js.split sep (a ++ String sep b) = a :: Js.split sep b.
Proof.
  induction a as [| c a IH]; simpl.
  - intros _. rewrite Ascii.eqb_refl. reflexivity.
  - intros H. apply orb_false_elim in H as [Hc Ha].
    rewrite Hc, (IH Ha). reflexivity.
Qed.

(** Splitting what [join] made of pieces free of the separator gives
    the pieces back. *)
Lemma split_join (sep : ascii) (l : list string) :
  l <> [] ->
  Forall (fun p => Js.contains sep p = false) l ->
  Js.split sep (Js.join (String sep "") l) = l.
Proof.
  unfold Js.join.
  induction l as [| x l IH]; [congruence |].
  intros _ Hall. inversion Hall as [| ? ? Hx Hl]; subst.
  destruct l as [| y l].
  - simpl. now apply split_without.
  - rewrite concat_cons_cons. simpl append.
    rewrite (split_app _ _ _ Hx). f_equal.
    apply IH; [discriminate | assumption].
Qed.

Lemma strip_prefix_app (p s : string) : Js.strip_prefix p (p ++ s) = Some s.
Proof.
  induction p as [| c p IH]; simpl; [now destruct s |].
  now rewrite Ascii.eqb_refl.
Qed.

Lemma truthy_true (s : string) : s <> "" -> Js.truthy s = true.
Proof.
  intros H. unfold Js.truthy.
  destruct (String.eqb_spec s ""); [contradiction | reflexivity].
Qed.

End JsFacts.

Module PercentFacts.

Ltac each_byte c := destruct c as [[] [] [] [] [] [] [] []].

Lemma decode_triplet (c : ascii) (rest : string) :
  Percent.decode (Percent.triplet c ++ rest) = String c (Percent.decode rest).
Proof. each_byte c; reflexivity. Qed.

Lemma triplet_without_amp (c : ascii) : Js.contains "&" (Percent.triplet c) = false.
Proof. each_byte c; reflexivity. Qed.

Lemma triplet_without_eq (c : ascii) : Js.contains "=" (Percent.triplet c) = false.
Proof. each_byte c; reflexivity. Qed.

Lemma kept_differs (keep : ascii -> bool) (c d : ascii) :
  keep d = false -> keep c = true -> Ascii.eqb c d = false.
Proof.
  intros Hd Hc. destruct (Ascii.eqb_spec c d) as [-> | _]; congruence.
Qed.

(** Decoding undoes encoding, whatever set of bytes is kept, as long as
    the percent sign itself is encoded. *)
Lemma decode_encode (keep : ascii -> bool) (s : string) :
  keep "%"%char = false -> Percent.decode (Percent.encode keep s) = s.
Proof.
  intros Hpct. induction s as [| c s IH]; [reflexivity |].
  cbn [Percent.encode]. destruct (keep c) eqn:Hc.
  - simpl. rewrite (kept_differs keep c "%" Hpct Hc), IH. reflexivity.
  - rewrite decode_triplet, IH. reflexivity.
Qed.

(** An encoded string is free of any byte that is neither kept nor part
    of a triplet. *)
Lemma encode_without (keep : ascii -> bool) (sep : ascii) (s : string) :
  keep sep = false ->
  (forall c, Js.contains sep (Percent.triplet c) = false) ->
  Js.contains sep (Percent.encode keep s) = false.
Proof.
  intros Hsep Htri. induction s as [| c s IH]; [reflexivity |].
  cbn [Percent.encode]. destruct (keep c) eqn:Hc.
  - simpl. now rewrite (kept_differs keep c sep Hsep Hc), IH.
  - now rewrite JsFacts.contains_app, Htri, IH.
Qed.

End PercentFacts.

Module FieldsFacts.

Section Codec.

Variables enc dec : string -> string.
Hypothesis dec_enc : forall s, dec (enc s) = s.
Hypothesis enc_without_amp : forall s, Js.contains "&" (enc s) = false.
Hypothesis enc_without_eq : forall s, Js.contains "=" (enc s) = false.

Lemma cut_app (sep : ascii) (k v : string) :
  Js.contains sep k = false -> Fields.cut sep (k ++ String sep v) = (k, v).
Proof.
  induction k as [| c k IH]; simpl.
  - intros _. now rewrite Ascii.eqb_refl.
  - intros H. apply orb_false_elim in H as [Hc Hk].
    now rewrite Hc, (IH Hk).
Qed.

Lemma read_field_field (p : string * string) :
  Fields.read_field dec (Fields.field enc p) = p.
Proof.
  destruct p as [k v]. unfold Fields.read_field, Fields.field. simpl.
  rewrite (cut_app "=" _ _ (enc_without_eq k)), !dec_enc. reflexivity.
Qed.

Lemma field_without_amp (p : string * string) :
  Js.contains "&" (Fields.field enc p) = false.
Proof.
  unfold Fields.field.
  rewrite !JsFacts.contains_app, !enc_without_amp. reflexivity.
Qed.

Lemma serialize_not_empty (p : string * string) (obj : Js.object) :
  Fields.serialize enc (p :: obj) <> "".
Proof.
  unfold Fields.serialize, Js.join, Fields.field. simpl map.
  destruct (enc (fst p)); destruct (map _ obj); discriminate.
Qed.

(** Reading back what was written gives the object: same keys, same
    values, same order. *)
Lemma deserialize_serialize (obj : Js.object) :
  Fields.deserialize dec (Fields.serialize enc obj) = obj.
Proof.
  destruct obj as [| p obj]; [reflexivity |].
  unfold Fields.deserialize.
  destruct (String.eqb_spec (Fields.serialize enc (p :: obj)) "") as [E | _].
  - now apply serialize_not_empty in E.
  - unfold Fields.serialize. rewrite (JsFacts.split_join "&").
    + rewrite map_map. rewrite <- (map_id (p :: obj)) at 2.
      apply map_ext. intros q. apply read_field_field.
    + discriminate.
    + apply Forall_forall. intros f Hf.
      apply in_map_iff in Hf as [q [<- _]]. apply field_without_amp.
Qed.

End Codec.

End FieldsFacts.

Module QueryStringFacts.

Example escape_callback :
  QueryString.escape "https://app.example/cb" = "https%3A%2F%2Fapp.example%2Fcb".
Proof. reflexivity. Qed.

Example stringify_empty_value :
  QueryString.stringify [("scope", ""); ("state", "a b&c")]
  = "scope=&state=a%20b%26c".
Proof. reflexivity. Qed.

Lemma unescape_escape (s : string) : Percent.decode (QueryString.escape s) = s.
Proof. now apply PercentFacts.decode_encode. Qed.

Lemma escape_without_amp (s : string) : Js.contains "&" (QueryString.escape s) = false.
Proof.
  apply PercentFacts.encode_without;
    [reflexivity | apply PercentFacts.triplet_without_amp].
Qed.

Lemma escape_without_eq (s : string) : Js.contains "=" (QueryString.escape s) = false.
Proof.
  apply PercentFacts.encode_without;
    [reflexivity | apply PercentFacts.triplet_without_eq].
Qed.

(** The query string of an object, read back, is the object. *)
Lemma parse_stringify (obj : Js.object) :
  QueryString.parse (QueryString.stringify obj) = obj.
Proof.
  apply FieldsFacts.deserialize_serialize;
    [apply unescape_escape | apply escape_without_amp | apply escape_without_eq].
Qed.

End QueryStringFacts.

Module FormUrlEncodedFacts.

Example form_encode_reserved :
  FormUrlEncoded.encode "a b~c*d/e" = "a+b%7Ec%2Ad%2Fe".
Proof. reflexivity. Qed.

Lemma form_decode_triplet (c : ascii) (rest : string) :
  FormUrlEncoded.decode (Percent.triplet c ++ rest)
  = String c (FormUrlEncoded.decode rest).
Proof. PercentFacts.each_byte c; reflexivity. Qed.

Lemma form_decode_encode (s : string) :
  FormUrlEncoded.decode (FormUrlEncoded.encode s) = s.
Proof.
  induction s as [| c s IH]; [reflexivity |].
  cbn [FormUrlEncoded.encode].
  destruct (Ascii.eqb_spec c " ") as [-> | _].
  - simpl. now rewrite IH.
  - destruct (FormUrlEncoded.unreserved c) eqn:Hc.
    + simpl.
      rewrite (PercentFacts.kept_differs FormUrlEncoded.unreserved c "+" eq_refl Hc).
      rewrite (PercentFacts.kept_differs FormUrlEncoded.unreserved c "%" eq_refl Hc).
      now rewrite IH.
    + now rewrite form_decode_triplet, IH.
Qed.

Lemma form_encode_without (sep : ascii) (s : string) :
  FormUrlEncoded.unreserved sep = false ->
  Ascii.eqb "+" sep = false ->
  (forall c, Js.contains sep (Percent.triplet c) = false) ->
  Js.contains sep (FormUrlEncoded.encode s) = false.
Proof.
  intros Hsep Hplus Htri. induction s as [| c s IH]; [reflexivity |].
  cbn [FormUrlEncoded.encode].
  destruct (Ascii.eqb c " ").
  - cbn [Js.contains]. now rewrite Hplus, IH.
  - destruct (FormUrlEncoded.unreserved c) eqn:Hc.
    + cbn [Js.contains]. now rewrite (PercentFacts.kept_differs _ c sep Hsep Hc), IH.
    + now rewrite JsFacts.contains_app, Htri, IH.
Qed.

(** The body made of an object, read back, is the object. *)
Lemma form_parse_encoded (data : Js.object) :
  FormUrlEncoded.parse (FormUrlEncoded.formUrlEncoded data) = data.
Proof.
  apply FieldsFacts.deserialize_serialize.
  - apply form_decode_encode.
  - intros s. apply form_encode_without;
      [reflexivity | reflexivity | apply PercentFacts.triplet_without_amp].
  - intros s. apply form_encode_without;
      [reflexivity | reflexivity | apply PercentFacts.triplet_without_eq].
Qed.

End FormUrlEncodedFacts.

Module Base64Facts.

(** The test vectors of RFC 4648, section 10. *)
Example base64_rfc4648 :
  map Base64.encode [""; "f"; "fo"; "foo"; "foob"; "fooba"; "foobar"]
  = [""; "Zg=="; "Zm8="; "Zm9v"; "Zm9vYg=="; "Zm9vYmE="; "Zm9vYmFy"].
Proof. reflexivity. Qed.

Example base64_abc_xyz : Base64.encode "abc:xyz" = "YWJjOnh5eg==".
Proof. reflexivity. Qed.

End Base64Facts.

(* ================================================================== *)
(** * The redirect URL *)

Lemma append_assoc3 (a b c : string) : (a ++ b) ++ c = a ++ b ++ c.
Proof. induction a as [| x a IH]; simpl; [reflexivity | now rewrite IH]. Qed.

Lemma append_empty_r (a : string) : a ++ "" = a.
Proof. induction a as [| x a IH]; simpl; [reflexivity | now rewrite IH]. Qed.

(** The query string of a redirect URL is the [query] object written by
    [stringify]. *)
Lemma url_query_redirect (this : SingleSignOn) state scopes :
  url_query this (getRedirectUrl this state scopes)
  = Some (QueryString.stringify (redirect_query this state scopes)).
Proof.
  unfold url_query, getRedirectUrl.
  rewrite <- append_assoc3. apply JsFacts.strip_prefix_app.
Qed.

(** A parameter read in a redirect URL is the property of the [query]
    object. *)
Lemma url_param_redirect (this : SingleSignOn) key state scopes :
  url_param this key (getRedirectUrl this state scopes)
  = Js.get key (redirect_query this state scopes).
Proof.
  unfold url_param. rewrite url_query_redirect.
  now rewrite QueryStringFacts.parse_stringify.
Qed.

(** The query string, field by field. *)
Lemma stringify_redirect_query (this : SingleSignOn) state scopes :
  QueryString.stringify (redirect_query this state scopes)
  = "response_type=code"
    ++ "&redirect_uri=" ++ QueryString.escape this.(callbackUri)
    ++ "&client_id=" ++ QueryString.escape this.(clientId)
    ++ "&scope=" ++ QueryString.escape (redirect_scope this scopes)
    ++ match when_truthy Js.truthy state with
       | Some given => "&state=" ++ QueryString.escape given
       | None => ""
       end.
Proof.
  unfold redirect_query, QueryString.stringify, Fields.serialize, Js.join,
    Fields.field.
  generalize (redirect_scope this scopes) as scope.
  intros scope.
  destruct (when_truthy Js.truthy state) as [given |]; simpl;
    generalize (QueryString.escape this.(callbackUri)) as uri;
    generalize (QueryString.escape this.(clientId)) as id;
    generalize (QueryString.escape scope) as sc; intros sc id uri.
  - generalize (QueryString.escape given) as st. intros st.
    rewrite ?append_assoc3. simpl. rewrite ?append_assoc3. reflexivity.
  - rewrite ?append_assoc3. simpl. rewrite ?append_assoc3, ?append_empty_r.
    reflexivity.
Qed.

(** C1.  Whatever the state and scopes arguments, [getRedirectUrl]
    returns [<endpoint>/v2/oauth/authorize?<query>], where the query has
    [response_type=code], [redirect_uri=<callbackUri>],
    [client_id=<clientId>] and [scope=<resolved scope>] (which may be
    empty), each value percent-encoded, so that the receiver reads these
    four values back; and the client made of ["abc"], ["xyz"],
    ["https://app.example/cb"] and the default endpoint answers
    [getRedirectUrl("s1", "esi-mail.read_mail.v1 publicData")] with the
    URL of the scenario. *)
Theorem getRedirectUrl_required_parameters :
  (forall (this : SingleSignOn) (state : option string) (scopes : option Scopes),
      let url := getRedirectUrl this state scopes in
      url = this.(endpoint) ++ "/v2/oauth/authorize?"
              ++ "response_type=code"
              ++ "&redirect_uri=" ++ QueryString.escape this.(callbackUri)
              ++ "&client_id=" ++ QueryString.escape this.(clientId)
              ++ "&scope=" ++ QueryString.escape (redirect_scope this scopes)
              ++ match when_truthy Js.truthy state with
                 | Some given => "&state=" ++ QueryString.escape given
                 | None => ""
                 end
      /\ url_param this "response_type" url = Some "code"
      /\ url_param this "redirect_uri" url = Some this.(callbackUri)
      /\ url_param this "client_id" url = Some this.(clientId)
      /\ url_param this "scope" url = Some (redirect_scope this scopes))
  /\
  (forall name version homepage process_version url_parse_hostname bent_refuses
          hostname,
      url_parse_hostname "https://login.eveonline.com" = Ok hostname ->
      bent_refuses "https://login.eveonline.com" "json" "POST" = None ->
      exists this,
        constructor name version homepage process_version
          url_parse_hostname bent_refuses
          "abc" "xyz" "https://app.example/cb" SingleSignOnOptions.empty
        = Ok this
        /\ getRedirectUrl this (Some "s1")
             (Some (ScopeString "esi-mail.read_mail.v1 publicData"))
           = "https://login.eveonline.com/v2/oauth/authorize?response_type=code&redirect_uri=https%3A%2F%2Fapp.example%2Fcb&client_id=abc&scope=esi-mail.read_mail.v1%20publicData&state=s1").
Proof.
  split.
  - intros this state scopes url. subst url. split.
    + unfold getRedirectUrl. now rewrite stringify_redirect_query.
    + rewrite !url_param_redirect. unfold redirect_query.
      destruct (when_truthy Js.truthy state); repeat split; reflexivity.
  - intros name version homepage process_version parse refuses hostname Hparse Hbent.
    eexists. split.
    + unfold constructor, bent. cbn [or_else when_truthy SingleSignOnOptions.endpoint
        SingleSignOnOptions.userAgent SingleSignOnOptions.scopes
        SingleSignOnOptions.empty].
      rewrite Hparse. cbn [bind]. rewrite Hbent. reflexivity.
    + reflexivity.
Qed.

Lemma getRedirectUrl_required_parameters_witness :
  exists this,
    constructor "eve-sso" "2.0.0" "https://github.com/LakMoore/eve-sso" "v18.0.0"
      (fun _ => Ok (Some "login.eveonline.com")) (fun _ _ _ => None)
      "abc" "xyz" "https://app.example/cb" SingleSignOnOptions.empty
    = Ok this
    /\ getRedirectUrl this (Some "s1")
         (Some (ScopeString "esi-mail.read_mail.v1 publicData"))
       = "https://login.eveonline.com/v2/oauth/authorize?response_type=code&redirect_uri=https%3A%2F%2Fapp.example%2Fcb&client_id=abc&scope=esi-mail.read_mail.v1%20publicData&state=s1".
Proof.
  apply (proj2 getRedirectUrl_required_parameters) with (hostname := Some "login.eveonline.com");
    reflexivity.
Defined.

Lemma client_with_defaults_constructed name version homepage process_version :
  constructor name version homepage process_version
    (fun _ => Ok (Some "login.eveonline.com")) (fun _ _ _ => None)
    "abc" "xyz" "https://app.example/cb"
    {| SingleSignOnOptions.endpoint := None;
       SingleSignOnOptions.userAgent := Some "eve-sso";
       SingleSignOnOptions.scopes := Some (ScopeArray ["publicData"]) |}
  = Ok client_with_defaults.
Proof. reflexivity. Qed.

Lemma truthy_scope_string (s : string) :
  s <> "" -> when_truthy truthy_scopes (Some (ScopeString s)) = Some (ScopeString s).
Proof. intros H. simpl. now rewrite (JsFacts.truthy_true s H). Qed.

(** C2, as stated, fails at the empty string: on a client with default
    scopes [publicData], [getRedirectUrl(undefined, "")] falls back to the
    defaults and sends [scope=publicData], while the split of the empty
    string, [[""]], is an array, counts as given, and sends [scope=]. *)
Lemma empty_scope_string_is_not_its_split :
  Js.split " " "" = [""]
  /\ url_param client_with_defaults "scope"
       (getRedirectUrl client_with_defaults None (Some (ScopeString "")))
     = Some "publicData"
  /\ url_param client_with_defaults "scope"
       (getRedirectUrl client_with_defaults None
          (Some (ScopeArray (Js.split " " ""))))
     = Some "".
Proof. repeat split; reflexivity. Qed.

(** C2, amended.  For every non-empty scope string [s], [getRedirectUrl]
    called with [s] returns the URL it returns for the sequence obtained by
    splitting [s] on single spaces, with [s] as the scope parameter; and
    the constructor given [s] as [scopes] makes the client it makes of that
    sequence. *)
Theorem scope_string_as_its_split (s : string) :
  s <> "" ->
  (forall this state,
      getRedirectUrl this state (Some (ScopeString s))
      = getRedirectUrl this state (Some (ScopeArray (Js.split " " s)))
      /\ url_param this "scope" (getRedirectUrl this state (Some (ScopeString s)))
         = Some s
      /\ url_param this "scope"
           (getRedirectUrl this state (Some (ScopeArray (Js.split " " s))))
         = Some s)
  /\
  (forall name version homepage process_version url_parse_hostname bent_refuses
          clientId secretKey callbackUri endpoint userAgent,
      constructor name version homepage process_version
        url_parse_hostname bent_refuses clientId secretKey callbackUri
        {| SingleSignOnOptions.endpoint := endpoint;
           SingleSignOnOptions.userAgent := userAgent;
           SingleSignOnOptions.scopes := Some (ScopeString s) |}
      = constructor name version homepage process_version
          url_parse_hostname bent_refuses clientId secretKey callbackUri
          {| SingleSignOnOptions.endpoint := endpoint;
             SingleSignOnOptions.userAgent := userAgent;
             SingleSignOnOptions.scopes := Some (ScopeArray (Js.split " " s)) |}).
Proof.
  intros Hs. split.
  - intros this state.
    assert (Hscope : redirect_scope this (Some (ScopeString s))
                     = redirect_scope this (Some (ScopeArray (Js.split " " s)))).
    { unfold redirect_scope. rewrite (truthy_scope_string s Hs).
      cbn [when_truthy truthy_scopes scope_text].
      now rewrite (JsFacts.join_split " " s). }
    assert (Hquery : redirect_query this state (Some (ScopeString s))
                     = redirect_query this state (Some (ScopeArray (Js.split " " s)))).
    { unfold redirect_query. now rewrite Hscope. }
    split; [unfold getRedirectUrl; now rewrite Hquery |].
    rewrite !url_param_redirect, <- Hquery. unfold redirect_query, redirect_scope.
    rewrite (truthy_scope_string s Hs).
    destruct (when_truthy Js.truthy state); split; reflexivity.
  - intros. unfold constructor.
    cbn [SingleSignOnOptions.endpoint SingleSignOnOptions.userAgent
         SingleSignOnOptions.scopes].
    rewrite (truthy_scope_string s Hs). reflexivity.
Qed.

Lemma scope_string_as_its_split_witness :
  (forall this state,
      getRedirectUrl this state (Some (ScopeString "a b"))
      = getRedirectUrl this state (Some (ScopeArray (Js.split " " "a b")))
      /\ url_param this "scope" (getRedirectUrl this state (Some (ScopeString "a b")))
         = Some "a b"
      /\ url_param this "scope"
           (getRedirectUrl this state (Some (ScopeArray (Js.split " " "a b"))))
         = Some "a b")
  /\
  (forall name version homepage process_version url_parse_hostname bent_refuses
          clientId secretKey callbackUri endpoint userAgent,
      constructor name version homepage process_version
        url_parse_hostname bent_refuses clientId secretKey callbackUri
        {| SingleSignOnOptions.endpoint := endpoint;
           SingleSignOnOptions.userAgent := userAgent;
           SingleSignOnOptions.scopes := Some (ScopeString "a b") |}
      = constructor name version homepage process_version
          url_parse_hostname bent_refuses clientId secretKey callbackUri
          {| SingleSignOnOptions.endpoint := endpoint;
             SingleSignOnOptions.userAgent := userAgent;
             SingleSignOnOptions.scopes := Some (ScopeArray (Js.split " " "a b")) |}).
Proof.
  apply (scope_string_as_its_split "a b"). discriminate.
Defined.

(** C3, as stated, fails when the explicit argument is the empty string:
    on a client with default scopes [publicData],
    [getRedirectUrl(undefined, "")] sends the defaults, not the empty
    value of its argument. *)
Lemma empty_scope_string_does_not_override :
  client_with_defaults.(scopes) = Some ["publicData"]
  /\ scope_text (ScopeString "") = ""
  /\ url_param client_with_defaults "scope"
       (getRedirectUrl client_with_defaults None (Some (ScopeString "")))
     = Some "publicData"
  /\ url_param client_with_defaults "scope"
       (getRedirectUrl client_with_defaults None (Some (ScopeString "")))
     <> Some (scope_text (ScopeString "")).
Proof. repeat split; try reflexivity. discriminate. Qed.

(** C3, amended.  The scope parameter of the URL is: the explicit scopes
    argument when it is a sequence (joined with spaces, the empty sequence
    included) or a non-empty string, whatever the construction-time
    defaults; the construction-time defaults, joined with spaces, when no
    argument is given; and, when there are no defaults either, the empty
    string, the parameter being present. *)
Theorem scope_precedence (this : SingleSignOn) (state : option string) :
  (forall a,
      url_param this "scope" (getRedirectUrl this state (Some (ScopeArray a)))
      = Some (Js.join " " a))
  /\ (forall s, s <> "" ->
         url_param this "scope" (getRedirectUrl this state (Some (ScopeString s)))
         = Some s)
  /\ (forall defaults, this.(scopes) = Some defaults ->
         url_param this "scope" (getRedirectUrl this state None)
         = Some (Js.join " " defaults))
  /\ (this.(scopes) = None ->
         url_param this "scope" (getRedirectUrl this state None) = Some "").
Proof.
  repeat split; intros; rewrite url_param_redirect; unfold redirect_query, redirect_scope.
  - destruct (when_truthy Js.truthy state); reflexivity.
  - rewrite (truthy_scope_string s H).
    destruct (when_truthy Js.truthy state); reflexivity.
  - rewrite H. destruct (when_truthy Js.truthy state); reflexivity.
  - rewrite H. destruct (when_truthy Js.truthy state); reflexivity.
Qed.

Lemma scope_precedence_witness :
  url_param client_with_defaults "scope"
    (getRedirectUrl client_with_defaults (Some "s1") (Some (ScopeString "esi-mail.read_mail.v1")))
  = Some "esi-mail.read_mail.v1"
  /\ url_param client_with_defaults "scope"
       (getRedirectUrl client_with_defaults (Some "s1") None)
     = Some (Js.join " " ["publicData"]).
Proof.
  pose proof (scope_precedence client_with_defaults (Some "s1")) as [_ [Hs [Hd _]]].
  split.
  - apply Hs. discriminate.
  - apply Hd. reflexivity.
Defined.

(** C4.  With no state given, the returned URL has no [state] parameter:
    its query has the four required parameters and nothing else.  With a
    non-empty state given, the URL has the [state] parameter, last, and
    its percent-decoded value is exactly the state given. *)
Theorem state_parameter (this : SingleSignOn) (scopes : option Scopes) :
  (url_param this "state" (getRedirectUrl this None scopes) = None
   /\ exists qs,
        url_query this (getRedirectUrl this None scopes) = Some qs
        /\ map fst (QueryString.parse qs)
           = ["response_type"; "redirect_uri"; "client_id"; "scope"])
  /\
  (forall state, state <> "" ->
      url_param this "state" (getRedirectUrl this (Some state) scopes) = Some state
      /\ exists qs,
           url_query this (getRedirectUrl this (Some state) scopes) = Some qs
           /\ map fst (QueryString.parse qs)
              = ["response_type"; "redirect_uri"; "client_id"; "scope"; "state"]).
Proof.
  split.
  - split; [now rewrite url_param_redirect |].
    eexists. split; [apply url_query_redirect |].
    now rewrite QueryStringFacts.parse_stringify.
  - intros state Hstate. split.
    + rewrite url_param_redirect. unfold redirect_query.
      cbn [when_truthy]. now rewrite (JsFacts.truthy_true state Hstate).
    + eexists. split; [apply url_query_redirect |].
      rewrite QueryStringFacts.parse_stringify. unfold redirect_query.
      cbn [when_truthy]. now rewrite (JsFacts.truthy_true state Hstate).
Qed.

Lemma state_parameter_witness :
  url_param client_with_defaults "state"
    (getRedirectUrl client_with_defaults (Some "s 1&x") None)
  = Some "s 1&x"
  /\ exists qs,
       url_query client_with_defaults
         (getRedirectUrl client_with_defaults (Some "s 1&x") None) = Some qs
       /\ map fst (QueryString.parse qs)
          = ["response_type"; "redirect_uri"; "client_id"; "scope"; "state"].
Proof.
  apply (proj2 (state_parameter client_with_defaults None) "s 1&x"). discriminate.
Defined.

(* ================================================================== *)
(** * Construction and the token requests *)

(** The request function of [bent(endpoint, 'json', 'POST')], when
    accepted: POST and JSON, on the endpoint if it has the shape of a
    base URL, and on no base URL otherwise. *)
Lemma configured_request (endpoint : string) :
  fold_left configure [endpoint; "json"; "POST"] unconfigured
  = {| baseurl := if is_base_url endpoint then endpoint else "";
       encoding := Some "json"; method := "POST" |}.
Proof.
  cbn [fold_left]. unfold configure at 1 2.
  change (argument_kind "POST") with Method.
  change (argument_kind "json") with Encoding.
  cbn [baseurl encoding method].
  unfold configure, argument_kind.
  destruct (is_base_url endpoint); [reflexivity |].
  destruct (is_encoding endpoint); reflexivity.
Qed.

(** What a successful construction has done: [parse] returned, [bent]
    accepted, and every field is as the constructor assigns it. *)
Lemma constructor_ok name version homepage process_version
    url_parse_hostname bent_refuses id secret callback opts this :
  constructor name version homepage process_version
    url_parse_hostname bent_refuses id secret callback opts = Ok this ->
  exists hostname,
    url_parse_hostname
      (or_else (SingleSignOnOptions.endpoint opts) "https://login.eveonline.com")
    = Ok hostname
    /\ bent_refuses
         (or_else (SingleSignOnOptions.endpoint opts) "https://login.eveonline.com")
         "json" "POST" = None
    /\ this.(clientId) = id
    /\ this.(secretKey) = secret
    /\ this.(callbackUri) = callback
    /\ this.(endpoint)
       = or_else (SingleSignOnOptions.endpoint opts) "https://login.eveonline.com"
    /\ this.(userAgent)
       = or_else (SingleSignOnOptions.userAgent opts)
           (name ++ "@" ++ version ++ " - nodejs@" ++ process_version
                 ++ " - " ++ homepage)
    /\ this.(authorization) = Base64.encode (id ++ ":" ++ secret)
    /\ this.(host) = hostname
    /\ this.(request)
       = {| baseurl :=
              if is_base_url (or_else (SingleSignOnOptions.endpoint opts)
                                      "https://login.eveonline.com")
              then or_else (SingleSignOnOptions.endpoint opts)
                           "https://login.eveonline.com"
              else "";
            encoding := Some "json"; method := "POST" |}.
Proof.
  unfold constructor, bent.
  destruct (url_parse_hostname _) as [hostname | e]; [| discriminate].
  cbn [bind].
  destruct (bent_refuses _ _ _) as [e |]; [discriminate |].
  cbn [bind]. intros H. injection H as <-.
  exists hostname. repeat split; try reflexivity.
  cbn [request]. apply configured_request.
Qed.

(** Each token method makes one call of the request function. *)
Lemma getAccessToken_calls network this code :
  calls network (getAccessToken this code)
  = [ {| call_function := this.(request);
         call_path := "/v2/oauth/token";
         call_body := FormUrlEncoded.formUrlEncoded
                        [ ("grant_type", "authorization_code"); ("code", code) ];
         call_headers :=
           [ ("Host", this.(host));
             ("Authorization", Some ("Basic " ++ this.(authorization)));
             ("Content-Type", Some "application/x-www-form-urlencoded");
             ("User-Agent", Some this.(userAgent)) ] |} ].
Proof. reflexivity. Qed.

Lemma refreshToken_calls network this token scopes :
  calls network (refreshToken this token scopes)
  = [ {| call_function := this.(request);
         call_path := "/v2/oauth/token";
         call_body := FormUrlEncoded.formUrlEncoded (refresh_payload token scopes);
         call_headers :=
           [ ("Host", this.(host));
             ("Authorization", Some ("Basic " ++ this.(authorization)));
             ("Content-Type", Some "application/x-www-form-urlencoded");
             ("User-Agent", Some this.(userAgent)) ] |} ].
Proof. reflexivity. Qed.

(** The promise a token method returns settles as the call does: the
    JSON of the response unchanged, or the failure unchanged. *)
Lemma token_call_outcome network this t :
  exists c,
    calls network (perform this t) = [c]
    /\ outcome network (perform this t) = network c.
Proof. destruct t; eexists; split; reflexivity. Qed.

(** C5.  On a client constructed with clientId [id] and secretKey
    [secret], the credential is computed by the constructor, and the one
    call made by [getAccessToken], and the one made by [refreshToken], has
    the Authorization header ["Basic "] followed by the Base64 encoding of
    [id:secret]. *)
Theorem authorization_header_is_basic_credential
    name version homepage process_version url_parse_hostname bent_refuses
    id secret callback opts this :
  constructor name version homepage process_version
    url_parse_hostname bent_refuses id secret callback opts = Ok this ->
  this.(authorization) = Base64.encode (id ++ ":" ++ secret)
  /\ (forall network code,
        map (fun c => header "Authorization" (call_headers c))
            (calls network (getAccessToken this code))
        = [ Some (Some ("Basic " ++ Base64.encode (id ++ ":" ++ secret))) ])
  /\ (forall network token scopes,
        map (fun c => header "Authorization" (call_headers c))
            (calls network (refreshToken this token scopes))
        = [ Some (Some ("Basic " ++ Base64.encode (id ++ ":" ++ secret))) ]).
Proof.
  intros H.
  apply constructor_ok in H as (_ & _ & _ & _ & _ & _ & _ & _ & Hauth & _).
  split; [exact Hauth |]. split; intros.
  - rewrite getAccessToken_calls. cbn [map call_headers header String.eqb Ascii.eqb Bool.eqb].
    now rewrite Hauth.
  - rewrite refreshToken_calls. cbn [map call_headers header String.eqb Ascii.eqb Bool.eqb].
    now rewrite Hauth.
Qed.

Lemma authorization_header_is_basic_credential_witness :
  client_with_defaults.(authorization) = Base64.encode ("abc" ++ ":" ++ "xyz")
  /\ (forall network code,
        map (fun c => header "Authorization" (call_headers c))
            (calls network (getAccessToken client_with_defaults code))
        = [ Some (Some ("Basic " ++ Base64.encode ("abc" ++ ":" ++ "xyz"))) ])
  /\ (forall network token scopes,
        map (fun c => header "Authorization" (call_headers c))
            (calls network (refreshToken client_with_defaults token scopes))
        = [ Some (Some ("Basic " ++ Base64.encode ("abc" ++ ":" ++ "xyz"))) ]).
Proof.
  apply (authorization_header_is_basic_credential
           "eve-sso" "2.0.0" "https://github.com/LakMoore/eve-sso" "v18.0.0"
           (fun _ => Ok (Some "login.eveonline.com")) (fun _ _ _ => None)
           "abc" "xyz" "https://app.example/cb"
           {| SingleSignOnOptions.endpoint := None;
              SingleSignOnOptions.userAgent := Some "eve-sso";
              SingleSignOnOptions.scopes := Some (ScopeArray ["publicData"]) |}).
  reflexivity.
Defined.




(** C7, as stated, fails when the scopes argument is the empty string:
    [refreshToken("RTOKEN", "")] is given a scopes argument and sends a
    body without a [scope] field (here on a network that answers [{}]). *)
Lemma refreshToken_empty_scope_string_sends_no_scope :
  map call_body
      (calls (fun _ => Ok (JsonValue "{}"))
         (refreshToken client_with_defaults "RTOKEN" (Some (ScopeString ""))))
  = [ "grant_type=refresh_token&refresh_token=RTOKEN" ]
  /\ map (body_field "scope")
         (calls (fun _ => Ok (JsonValue "{}"))
            (refreshToken client_with_defaults "RTOKEN" (Some (ScopeString ""))))
     = [ None ].
Proof. split; reflexivity. Qed.

(** C7, amended.  [refreshToken] makes one call whose body has
    [grant_type=refresh_token] and [refresh_token=<the token given>]; it
    has a [scope] field exactly when the scopes argument is a sequence
    (then its tokens joined with spaces, the empty sequence giving an
    empty value) or a non-empty string (then that string), and none when
    the argument is omitted; the body is the same on every client, so the
    construction-time default scopes play no part. *)
Theorem refreshToken_body (this : SingleSignOn) (token : string)
    (scopes : option Scopes) (network : Call -> Result Json) :
  exists c,
    calls network (refreshToken this token scopes) = [c]
    /\ body_field "grant_type" c = Some "refresh_token"
    /\ body_field "refresh_token" c = Some token
    /\ body_field "scope" c
       = match scopes with
         | Some (ScopeArray a) => Some (Js.join " " a)
         | Some (ScopeString s) => if s =? "" then None else Some s
         | None => None
         end
    /\ map fst (FormUrlEncoded.parse (call_body c))
       = match body_field "scope" c with
         | Some _ => [ "grant_type"; "refresh_token"; "scope" ]
         | None => [ "grant_type"; "refresh_token" ]
         end
    /\ (forall other network',
          map call_body (calls network' (refreshToken other token scopes))
          = [ call_body c ]).
Proof.
  eexists. split; [apply refreshToken_calls |].
  assert (Hsame : forall other network',
             map call_body (calls network' (refreshToken other token scopes))
             = [ FormUrlEncoded.formUrlEncoded (refresh_payload token scopes) ])
    by reflexivity.
  unfold body_field. cbn [call_body].
  rewrite FormUrlEncodedFacts.form_parse_encoded.
  refine (conj _ (conj _ (conj _ (conj _ Hsame)))); clear Hsame;
    unfold refresh_payload;
    destruct scopes as [[s | a] |]; cbn [when_truthy truthy_scopes scope_text];
    try (unfold Js.truthy; destruct (s =? "")); reflexivity.
Qed.

(** C8.  On one client, any two calls of [getAccessToken] or
    [refreshToken], with any arguments and whatever the network answers,
    send the same headers; on a constructed client these are [Host] (the
    hostname [parse] read in the endpoint), [Authorization] (the Basic
    credential of clientId and secretKey), [Content-Type] and [User-Agent]
    (the one given, or the composite default) as the constructor derived
    them: a function of the construction parameters alone. *)
Theorem token_headers_fixed_at_construction :
  (forall this first second network network',
      map call_headers (calls network (perform this first))
      = map call_headers (calls network' (perform this second)))
  /\
  (forall name version homepage process_version url_parse_hostname bent_refuses
          id secret callback opts this,
      constructor name version homepage process_version
        url_parse_hostname bent_refuses id secret callback opts = Ok this ->
      exists hostname,
        url_parse_hostname
          (or_else (SingleSignOnOptions.endpoint opts) "https://login.eveonline.com")
        = Ok hostname
        /\ forall network t,
             map call_headers (calls network (perform this t))
             = [ [ ("Host", hostname);
                   ("Authorization",
                    Some ("Basic " ++ Base64.encode (id ++ ":" ++ secret)));
                   ("Content-Type", Some "application/x-www-form-urlencoded");
                   ("User-Agent",
                    Some (or_else (SingleSignOnOptions.userAgent opts)
                            (name ++ "@" ++ version ++ " - nodejs@"
                                  ++ process_version ++ " - " ++ homepage))) ] ]).
Proof.
  split.
  - intros this [code | token scopes] [code' | token' scopes'] network network';
      reflexivity.
  - intros name version homepage process_version parse refuses
           id secret callback opts this H.
    apply constructor_ok in H
      as (hostname & Hparse & _ & _ & _ & _ & _ & Hagent & Hauth & Hhost & _).
    exists hostname. split; [exact Hparse |].
    intros network [code | token scopes]; cbn [perform];
      [rewrite getAccessToken_calls | rewrite refreshToken_calls];
      cbn [map call_headers]; now rewrite Hagent, Hauth, Hhost.
Qed.

Lemma token_headers_fixed_at_construction_witness :
  exists hostname,
    (fun _ : string => Ok (Some "login.eveonline.com"))
      (or_else None "https://login.eveonline.com") = Ok hostname
    /\ forall network t,
         map call_headers (calls network (perform client_with_defaults t))
         = [ [ ("Host", hostname);
               ("Authorization",
                Some ("Basic " ++ Base64.encode ("abc" ++ ":" ++ "xyz")));
               ("Content-Type", Some "application/x-www-form-urlencoded");
               ("User-Agent",
                Some (or_else (Some "eve-sso")
                        ("eve-sso" ++ "@" ++ "2.0.0" ++ " - nodejs@"
                                   ++ "v18.0.0" ++ " - "
                                   ++ "https://github.com/LakMoore/eve-sso"))) ] ].
Proof.
  apply (proj2 token_headers_fixed_at_construction
           "eve-sso" "2.0.0" "https://github.com/LakMoore/eve-sso" "v18.0.0"
           (fun _ => Ok (Some "login.eveonline.com")) (fun _ _ _ => None)
           "abc" "xyz" "https://app.example/cb"
           {| SingleSignOnOptions.endpoint := None;
              SingleSignOnOptions.userAgent := Some "eve-sso";
              SingleSignOnOptions.scopes := Some (ScopeArray ["publicData"]) |}).
  reflexivity.
Defined.

(** C9, as stated, fails: where [parse] reads no host in the endpoint
    (as in [https:/login.eveonline.com], one slash short) and returns a
    [null] hostname, and [bent] accepts the string as a base URL, the
    constructor returns a client, whose Host is [null]; so it is not the
    case that construction fails wherever no hostname is derived. *)
Lemma constructor_tolerates_missing_hostname :
  (exists this,
      constructor "eve-sso" "2.0.0" "https://github.com/LakMoore/eve-sso" "v18.0.0"
        (fun _ => Ok None) (fun _ _ _ => None)
        "abc" "xyz" "https://app.example/cb"
        {| SingleSignOnOptions.endpoint := Some "https:/login.eveonline.com";
           SingleSignOnOptions.userAgent := None;
           SingleSignOnOptions.scopes := None |}
      = Ok this
      /\ this.(host) = None)
  /\ ~ (forall name version homepage process_version url_parse_hostname bent_refuses
               id secret callback opts,
           url_parse_hostname
             (or_else (SingleSignOnOptions.endpoint opts) "https://login.eveonline.com")
           = Ok None ->
           exists e,
             constructor name version homepage process_version
               url_parse_hostname bent_refuses id secret callback opts
             = Throw e).
Proof.
  split.
  - eexists. split; reflexivity.
  - intros H.
    destruct (H "eve-sso" "2.0.0" "https://github.com/LakMoore/eve-sso" "v18.0.0"
                (fun _ => Ok None) (fun _ _ _ => None)
                "abc" "xyz" "https://app.example/cb"
                {| SingleSignOnOptions.endpoint := Some "https:/login.eveonline.com";
                   SingleSignOnOptions.userAgent := None;
                   SingleSignOnOptions.scopes := None |} eq_refl) as [e He].
    discriminate He.
Qed.

(** C9, amended.  Construction fails exactly when [parse] throws on the
    endpoint or [bent] refuses it, and then with that exception; an
    endpoint in which [parse] reads no hostname does not make it fail: if
    [bent] accepts the endpoint, the client is returned with a [null]
    Host, which the token requests then send. *)
Theorem constructor_failure
    name version homepage process_version url_parse_hostname bent_refuses
    id secret callback opts :
  let endpoint :=
    or_else (SingleSignOnOptions.endpoint opts) "https://login.eveonline.com" in
  let made :=
    constructor name version homepage process_version
      url_parse_hostname bent_refuses id secret callback opts in
  (forall e, url_parse_hostname endpoint = Throw e -> made = Throw e)
  /\ (forall hostname e,
         url_parse_hostname endpoint = Ok hostname ->
         bent_refuses endpoint "json" "POST" = Some e -> made = Throw e)
  /\ (forall hostname,
         url_parse_hostname endpoint = Ok hostname ->
         bent_refuses endpoint "json" "POST" = None ->
         exists this,
           made = Ok this /\ this.(host) = hostname
           /\ forall network t,
                map (fun c => header "Host" (call_headers c))
                    (calls network (perform this t))
                = [ Some hostname ]).
Proof.
  intros endpoint made. subst endpoint made. unfold constructor, bent.
  repeat split.
  - intros e ->. reflexivity.
  - intros hostname e -> ->. reflexivity.
  - intros hostname -> ->. eexists. split; [reflexivity |].
    split; [reflexivity |]. intros network [code | token scopes]; reflexivity.
Qed.

Lemma constructor_failure_witness :
  exists this,
    constructor "eve-sso" "2.0.0" "https://github.com/LakMoore/eve-sso" "v18.0.0"
      (fun _ => Ok None) (fun _ _ _ => None)
      "abc" "xyz" "https://app.example/cb"
      {| SingleSignOnOptions.endpoint := Some "https:/login.eveonline.com";
         SingleSignOnOptions.userAgent := None;
         SingleSignOnOptions.scopes := None |}
    = Ok this
    /\ this.(host) = None
    /\ forall network t,
         map (fun c => header "Host" (call_headers c))
             (calls network (perform this t))
         = [ Some None ].
Proof.
  apply (proj2 (proj2 (constructor_failure
           "eve-sso" "2.0.0" "https://github.com/LakMoore/eve-sso" "v18.0.0"
           (fun _ => Ok None) (fun _ _ _ => None)
           "abc" "xyz" "https://app.example/cb"
           {| SingleSignOnOptions.endpoint := Some "https:/login.eveonline.com";
              SingleSignOnOptions.userAgent := None;
              SingleSignOnOptions.scopes := None |})) None);
    reflexivity.
Defined.

(** C10.  The empty string and the empty sequence are told apart.  The
    empty string as [scopes] is as no [scopes] at all: the constructor
    makes the same client (default scopes unset), [getRedirectUrl] returns
    the same URL (so the defaults apply), [refreshToken] makes the same
    call (no [scope] field).  The empty sequence counts as given: the
    constructor stores it, [getRedirectUrl] sends an empty [scope] value
    whatever the defaults, [refreshToken] sends a body ending in [&scope=].
    The empty string as state is as no state: same URL, no [state]
    parameter.  So on a client with default scopes [getRedirectUrl]
    sends the defaults for the empty string and an empty value for the
    empty sequence; a client made with the empty string has no default
    scopes, one made with the empty sequence has the empty ones; and a
    state that is not empty is sent. *)
Theorem empty_string_and_empty_sequence :
  (* the empty string *)
  (forall name version homepage process_version url_parse_hostname bent_refuses
          id secret callback endpoint userAgent,
      constructor name version homepage process_version
        url_parse_hostname bent_refuses id secret callback
        {| SingleSignOnOptions.endpoint := endpoint;
           SingleSignOnOptions.userAgent := userAgent;
           SingleSignOnOptions.scopes := Some (ScopeString "") |}
      = constructor name version homepage process_version
          url_parse_hostname bent_refuses id secret callback
          {| SingleSignOnOptions.endpoint := endpoint;
             SingleSignOnOptions.userAgent := userAgent;
             SingleSignOnOptions.scopes := None |})
  /\ (forall this state,
         getRedirectUrl this state (Some (ScopeString ""))
         = getRedirectUrl this state None)
  /\ (forall this token network,
         refreshToken this token (Some (ScopeString "")) = refreshToken this token None
         /\ map (body_field "scope")
                (calls network (refreshToken this token (Some (ScopeString ""))))
            = [ None ])
  (* the empty sequence *)
  /\ (forall name version homepage process_version url_parse_hostname bent_refuses
             id secret callback endpoint userAgent this,
         constructor name version homepage process_version
           url_parse_hostname bent_refuses id secret callback
           {| SingleSignOnOptions.endpoint := endpoint;
              SingleSignOnOptions.userAgent := userAgent;
              SingleSignOnOptions.scopes := Some (ScopeArray []) |}
         = Ok this ->
         this.(scopes) = Some [])
  /\ (forall this state,
         url_param this "scope" (getRedirectUrl this state (Some (ScopeArray [])))
         = Some "")
  /\ (forall this token network,
         map call_body (calls network (refreshToken this token (Some (ScopeArray []))))
         = [ "grant_type=refresh_token&refresh_token="
               ++ FormUrlEncoded.encode token ++ "&scope=" ]
         /\ map (body_field "scope")
                (calls network (refreshToken this token (Some (ScopeArray []))))
            = [ Some "" ])
  (* the empty state *)
  /\ (forall this scopes,
         getRedirectUrl this (Some "") scopes = getRedirectUrl this None scopes
         /\ url_param this "state" (getRedirectUrl this (Some "") scopes) = None)
  (* the two told apart *)
  /\ (forall this state defaults,
         this.(scopes) = Some defaults ->
         url_param this "scope" (getRedirectUrl this state (Some (ScopeString "")))
         = Some (Js.join " " defaults)
         /\ url_param this "scope" (getRedirectUrl this state (Some (ScopeArray [])))
            = Some "")
  /\ (forall name version homepage process_version url_parse_hostname bent_refuses
             id secret callback endpoint userAgent this,
         constructor name version homepage process_version
           url_parse_hostname bent_refuses id secret callback
           {| SingleSignOnOptions.endpoint := endpoint;
              SingleSignOnOptions.userAgent := userAgent;
              SingleSignOnOptions.scopes := Some (ScopeString "") |}
         = Ok this ->
         this.(scopes) = None)
  /\ (forall this scopes state,
         state <> "" ->
         url_param this "state" (getRedirectUrl this (Some state) scopes)
         = Some state).
Proof.
  split; [reflexivity |].
  split; [reflexivity |].
  split.
  { intros this token network. split; [reflexivity |].
    rewrite refreshToken_calls. cbn [map]. unfold body_field. cbn [call_body].
    now rewrite FormUrlEncodedFacts.form_parse_encoded. }
  split.
  { intros name version homepage process_version parse refuses
           id secret callback endpoint userAgent this.
    unfold constructor, bent.
    destruct (parse _); [| discriminate]. cbn [bind].
    destruct (refuses _ _ _); [discriminate |]. cbn [bind].
    intros H. injection H as <-. reflexivity. }
  split.
  { intros this state. rewrite url_param_redirect. unfold redirect_query.
    destruct (when_truthy Js.truthy state); reflexivity. }
  split.
  { intros this token network. rewrite refreshToken_calls. cbn [map].
    unfold body_field. cbn [call_body].
    rewrite FormUrlEncodedFacts.form_parse_encoded. split; [| reflexivity].
    unfold FormUrlEncoded.formUrlEncoded, Fields.serialize, Fields.field, Js.join.
    simpl. generalize (FormUrlEncoded.encode token) as t. intros t.
    now rewrite ?append_assoc3. }
  split.
  { intros this scopes. split; [reflexivity |].
    now rewrite url_param_redirect. }
  split.
  { intros this state defaults Hdefaults.
    rewrite !url_param_redirect. unfold redirect_query, redirect_scope.
    cbn [when_truthy truthy_scopes scope_text Js.truthy String.eqb negb].
    rewrite Hdefaults.
    destruct (when_truthy Js.truthy state); split; reflexivity. }
  split.
  { intros name version homepage process_version parse refuses
           id secret callback endpoint userAgent this.
    unfold constructor, bent.
    destruct (parse _); [| discriminate]. cbn [bind].
    destruct (refuses _ _ _); [discriminate |]. cbn [bind].
    intros H. injection H as <-. reflexivity. }
  intros this scopes state Hstate.
  rewrite url_param_redirect. unfold redirect_query.
  cbn [when_truthy]. now rewrite (JsFacts.truthy_true state Hstate).
Qed.

Lemma empty_string_and_empty_sequence_witness :
  (exists this,
      constructor "eve-sso" "2.0.0" "https://github.com/LakMoore/eve-sso" "v18.0.0"
        (fun _ => Ok (Some "login.eveonline.com")) (fun _ _ _ => None)
        "abc" "xyz" "https://app.example/cb"
        {| SingleSignOnOptions.endpoint := None;
           SingleSignOnOptions.userAgent := None;
           SingleSignOnOptions.scopes := Some (ScopeArray []) |}
      = Ok this
      /\ this.(scopes) = Some [])
  /\ (exists this,
        constructor "eve-sso" "2.0.0" "https://github.com/LakMoore/eve-sso" "v18.0.0"
          (fun _ => Ok (Some "login.eveonline.com")) (fun _ _ _ => None)
          "abc" "xyz" "https://app.example/cb"
          {| SingleSignOnOptions.endpoint := None;
             SingleSignOnOptions.userAgent := None;
             SingleSignOnOptions.scopes := Some (ScopeString "") |}
        = Ok this
        /\ this.(scopes) = None)
  /\ (url_param client_with_defaults "scope"
        (getRedirectUrl client_with_defaults None (Some (ScopeString "")))
      = Some (Js.join " " ["publicData"])
      /\ url_param client_with_defaults "scope"
           (getRedirectUrl client_with_defaults None (Some (ScopeArray [])))
         = Some "")
  /\ url_param client_with_defaults "state"
       (getRedirectUrl client_with_defaults (Some "s1") None)
     = Some "s1".
Proof.
  destruct empty_string_and_empty_sequence
    as (_ & _ & _ & Hstored & _ & _ & _ & Htold & Hunset & Hstate).
  split.
  { eexists. split; [reflexivity |].
    apply (Hstored "eve-sso" "2.0.0" "https://github.com/LakMoore/eve-sso" "v18.0.0"
             (fun _ => Ok (Some "login.eveonline.com")) (fun _ _ _ => None)
             "abc" "xyz" "https://app.example/cb" None None).
    reflexivity. }
  split.
  { eexists. split; [reflexivity |].
    apply (Hunset "eve-sso" "2.0.0" "https://github.com/LakMoore/eve-sso" "v18.0.0"
             (fun _ => Ok (Some "login.eveonline.com")) (fun _ _ _ => None)
             "abc" "xyz" "https://app.example/cb" None None).
    reflexivity. }
  split.
  { apply (Htold client_with_defaults None ["publicData"]). reflexivity. }
  apply Hstate. discriminate.
Defined.

(* ================================================================== *)
(** * Further properties of the class *)

(** ** The Basic credential (constructor, line 47) *)

Module Base64DecodingFacts.

Local Open Scope N_scope.

Lemma below_64 (P : N -> Prop) :
  (forall i : nat, (i < 64)%nat -> P (N.of_nat i)) -> forall n, n < 64 -> P n.
Proof.
  intros H n Hn. rewrite <- (N2Nat.id n). apply H. lia.
Qed.

Lemma value_digit (n : N) :
  n < 64 -> Base64Decoding.value (Base64.digit n) = Some n.
Proof.
  revert n. apply below_64. intros i Hi.
  do 64 (destruct i as [| i]; [reflexivity |]). lia.
Qed.

Lemma digit_not_padding (n : N) :
  n < 64 -> Ascii.eqb (Base64.digit n) "=" = false.
Proof.
  revert n. apply below_64. intros i Hi.
  do 64 (destruct i as [| i]; [reflexivity |]). lia.
Qed.

Lemma land_shiftr_63 (w k : N) : N.land (N.shiftr w k) 63 = (w / 2 ^ k) mod 64.
Proof.
  rewrite N.shiftr_div_pow2. change 63 with (N.ones 6). now rewrite N.land_ones.
Qed.

Lemma six_below (w k : N) : Base64Decoding.six w k < 64.
Proof. unfold Base64Decoding.six. apply N.mod_lt. discriminate. Qed.

Lemma sextet_six (w i : N) : Base64.sextet w i = Base64.digit (Base64Decoding.six w (18 - 6 * i)).
Proof. unfold Base64.sextet, Base64Decoding.six. now rewrite land_shiftr_63. Qed.

Lemma byte_of_ascii (a : ascii) (n : N) :
  n mod 256 = N_of_ascii a -> Base64Decoding.byte n = a.
Proof.
  intros H. unfold Base64Decoding.byte. rewrite H. apply ascii_N_embedding.
Qed.

Ltac euclid := zify; Z.to_euclidean_division_equations; lia.

Lemma regroup (A B C : N) :
  A < 256 -> B < 256 -> C < 256 ->
  let w := A * 65536 + B * 256 + C in
  (Base64Decoding.six w 18 * 4 + Base64Decoding.six w 12 / 16) mod 256 = A
  /\ (Base64Decoding.six w 12 * 16 + Base64Decoding.six w 6 / 4) mod 256 = B
  /\ (Base64Decoding.six w 6 * 64 + Base64Decoding.six w 0) mod 256 = C.
Proof.
  intros HA HB HC w. subst w. unfold Base64Decoding.six.
  change (2 ^ 18) with 262144. change (2 ^ 12) with 4096.
  change (2 ^ 6) with 64. change (2 ^ 0) with 1.
  repeat split; euclid.
Qed.

Lemma by_triples (P : string -> Prop) :
  P EmptyString ->
  (forall a, P (String a EmptyString)) ->
  (forall a b, P (String a (String b EmptyString))) ->
  (forall a b c s, P s -> P (String a (String b (String c s)))) ->
  forall s, P s.
Proof.
  intros H0 H1 H2 H3.
  refine (fix go (s : string) : P s :=
            match s with
            | EmptyString => H0
            | String a EmptyString => H1 a
            | String a (String b EmptyString) => H2 a b
            | String a (String b (String c r)) => H3 a b c r (go r)
            end).
Qed.

Lemma sextets_of_word (a b c : ascii) :
  let w := Base64.word a b c in
  Base64Decoding.byte (Base64Decoding.six w 18 * 4 + Base64Decoding.six w 12 / 16) = a
  /\ Base64Decoding.byte (Base64Decoding.six w 12 * 16 + Base64Decoding.six w 6 / 4) = b
  /\ Base64Decoding.byte (Base64Decoding.six w 6 * 64 + Base64Decoding.six w 0) = c.
Proof.
  intros w. subst w. unfold Base64.word.
  destruct (regroup (N_of_ascii a) (N_of_ascii b) (N_of_ascii c)
              (N_ascii_bounded a) (N_ascii_bounded b) (N_ascii_bounded c))
    as (Ha & Hb & Hc).
  repeat split; apply byte_of_ascii; assumption.
Qed.

(** Decoding undoes encoding: the Base64 text determines the bytes. *)
Lemma base64_decode_encode (s : string) :
  Base64Decoding.decode (Base64.encode s) = Some s.
Proof.
  induction s as [| a | a b | a b c s IH] using by_triples.
  - reflexivity.
  - cbn [Base64.encode]. cbv zeta. rewrite !sextet_six.
    change (18 - 6 * 0) with 18. change (18 - 6 * 1) with 12.
    cbn [Base64Decoding.decode].
    rewrite !value_digit by apply six_below.
    change (Ascii.eqb "=" "=") with true. cbv iota.
    destruct (sextets_of_word a zero zero) as (-> & _ & _). reflexivity.
  - cbn [Base64.encode]. cbv zeta. rewrite !sextet_six.
    change (18 - 6 * 0) with 18. change (18 - 6 * 1) with 12.
    change (18 - 6 * 2) with 6.
    cbn [Base64Decoding.decode].
    rewrite !value_digit by apply six_below.
    change (Ascii.eqb "=" "=") with true. cbv iota.
    rewrite digit_not_padding by apply six_below.
    destruct (sextets_of_word a b zero) as (-> & -> & _). reflexivity.
  - cbn [Base64.encode]. cbv zeta. rewrite !sextet_six.
    change (18 - 6 * 0) with 18. change (18 - 6 * 1) with 12.
    change (18 - 6 * 2) with 6. change (18 - 6 * 3) with 0.
    cbn [Base64Decoding.decode].
    rewrite !value_digit by apply six_below.
    rewrite digit_not_padding by apply six_below.
    rewrite IH.
    destruct (sextets_of_word a b c) as (-> & -> & ->). reflexivity.
Qed.

End Base64DecodingFacts.

Lemma encode_injective (s t : string) :
  Base64.encode s = Base64.encode t -> s = t.
Proof.
  intros H.
  pose proof (Base64DecodingFacts.base64_decode_encode s) as Hs.
  rewrite H, Base64DecodingFacts.base64_decode_encode in Hs. congruence.
Qed.

Lemma pair_of_credential_text (id secret id' secret' : string) :
  Js.contains ":" id = false -> Js.contains ":" id' = false ->
  id ++ ":" ++ secret = id' ++ ":" ++ secret' -> id = id' /\ secret = secret'.
Proof.
  intros Hid Hid' H.
  pose proof (FieldsFacts.cut_app ":" id secret Hid) as Hcut.
  change (id ++ String ":" secret) with (id ++ ":" ++ secret) in Hcut.
  rewrite H in Hcut.
  change (id' ++ ":" ++ secret') with (id' ++ String ":" secret') in Hcut.
  rewrite (FieldsFacts.cut_app ":" id' secret' Hid') in Hcut.
  split; congruence.
Qed.





(** A colon in the clientId is not told from one in the secretKey: the
    pairs [(a:b, c)] and [(a, b:c)] get the same credential. *)
Theorem credential_colon_collision
    name version homepage process_version url_parse_hostname bent_refuses
    (a b c callback : string) opts :
  match constructor name version homepage process_version
          url_parse_hostname bent_refuses (a ++ ":" ++ b) c callback opts,
        constructor name version homepage process_version
          url_parse_hostname bent_refuses a (b ++ ":" ++ c) callback opts
  with
  | Ok this, Ok this' => this.(authorization) = this'.(authorization)
  | Throw e, Throw e' => e = e'
  | _, _ => False
  end.
Proof.
  unfold constructor, bent.
  destruct (url_parse_hostname _); cbn [bind]; [| reflexivity].
  destruct (bent_refuses _ _ _); cbn [bind]; [reflexivity |].
  cbn [authorization]. now rewrite append_assoc3.
Qed.

(** ** The redirect URL ([getRedirectUrl], lines 58-79) *)

(** The redirect URL is made of the endpoint, the callback, the clientId
    and the default scopes of the client and of nothing else in it: two
    clients that agree on these four return the same URL, whatever their
    secretKey, credential, host and user agent. *)
Theorem redirect_url_ignores_secrets (this other : SingleSignOn)
    (state : option string) (given : option Scopes) :
  this.(endpoint) = other.(endpoint) ->
  this.(callbackUri) = other.(callbackUri) ->
  this.(clientId) = other.(clientId) ->
  this.(scopes) = other.(scopes) ->
  getRedirectUrl this state given = getRedirectUrl other state given.
Proof.
  intros He Hc Hi Hs.
  unfold getRedirectUrl, redirect_query, redirect_scope.
  now rewrite He, Hc, Hi, Hs.
Qed.

Lemma redirect_url_ignores_secrets_witness :
  getRedirectUrl client_with_defaults (Some "s1") None
  = getRedirectUrl
      {| clientId := "abc"; callbackUri := "https://app.example/cb";
         endpoint := "https://login.eveonline.com"; userAgent := "other agent";
         scopes := Some ["publicData"]; secretKey := "another secret";
         authorization := Base64.encode "abc:another secret";
         host := None;
         request := {| baseurl := "https://login.eveonline.com";
                       encoding := Some "json"; method := "POST" |} |}
      (Some "s1") None.
Proof.
  apply redirect_url_ignores_secrets; reflexivity.
Defined.

(** The query string of a redirect URL, read back, is the list of the
    parameters in the order of the source, each with the value it had
    before encoding, and the state (when given and not empty) last. *)
Theorem redirect_query_round_trip (this : SingleSignOn)
    (state : option string) (given : option Scopes) :
  exists qs,
    url_query this (getRedirectUrl this state given) = Some qs
    /\ QueryString.parse qs
       = ([ ("response_type", "code");
            ("redirect_uri", this.(callbackUri));
            ("client_id", this.(clientId));
            ("scope", redirect_scope this given) ]
          ++ match state with
             | Some s => if s =? "" then [] else [ ("state", s) ]
             | None => []
             end)%list.
Proof.
  eexists. split; [apply url_query_redirect |].
  rewrite QueryStringFacts.parse_stringify. unfold redirect_query.
  destruct state as [s |]; [| reflexivity].
  cbn [when_truthy]. unfold Js.truthy. destruct (s =? ""); reflexivity.
Qed.

Module BytesFacts.

Lemma all_app (p : ascii -> bool) (a b : string) :
  Bytes.all p (a ++ b) = Bytes.all p a && Bytes.all p b.
Proof.
  induction a as [| c a IH]; simpl; [reflexivity |].
  now rewrite IH, andb_assoc.
Qed.

Lemma all_concat (p : ascii -> bool) (sep : string) (l : list string) :
  Bytes.all p sep = true ->
  Forall (fun s => Bytes.all p s = true) l ->
  Bytes.all p (String.concat sep l) = true.
Proof.
  intros Hsep. induction 1 as [| x l Hx Hl IH]; [reflexivity |].
  destruct l as [| y l]; [exact Hx |].
  rewrite JsFacts.concat_cons_cons, !all_app, Hx, Hsep. exact IH.
Qed.

(** A string all of whose bytes satisfy [p] has no byte that does not. *)
Lemma all_excludes (p : ascii -> bool) (c : ascii) (s : string) :
  p c = false -> Bytes.all p s = true -> Js.contains c s = false.
Proof.
  intros Hc. induction s as [| d s IH]; simpl; [reflexivity |].
  intros H. apply andb_prop in H as [Hd Hs].
  rewrite (IH Hs), orb_false_r.
  destruct (Ascii.eqb_spec d c) as [-> | _]; congruence.
Qed.

Lemma triplet_query_bytes (c : ascii) :
  Bytes.all Bytes.query_byte (Percent.triplet c) = true.
Proof. PercentFacts.each_byte c; reflexivity. Qed.

Lemma triplet_form_bytes (c : ascii) :
  Bytes.all Bytes.form_byte (Percent.triplet c) = true.
Proof. PercentFacts.each_byte c; reflexivity. Qed.

Lemma escape_query_bytes (s : string) :
  Bytes.all Bytes.query_byte (QueryString.escape s) = true.
Proof.
  unfold QueryString.escape. induction s as [| c s IH]; [reflexivity |].
  cbn [Percent.encode]. destruct (QueryString.unreserved c) eqn:Hc.
  - cbn [Bytes.all]. unfold Bytes.query_byte at 1. now rewrite Hc, IH.
  - now rewrite all_app, triplet_query_bytes, IH.
Qed.

Lemma form_encode_bytes (s : string) :
  Bytes.all Bytes.form_byte (FormUrlEncoded.encode s) = true.
Proof.
  induction s as [| c s IH]; [reflexivity |].
  cbn [FormUrlEncoded.encode]. destruct (Ascii.eqb c " ").
  - cbn [Bytes.all]. now rewrite IH.
  - destruct (FormUrlEncoded.unreserved c) eqn:Hc.
    + cbn [Bytes.all]. unfold Bytes.form_byte at 1. now rewrite Hc, IH.
    + now rewrite all_app, triplet_form_bytes, IH.
Qed.

Lemma serialize_bytes (p : ascii -> bool) (enc : string -> string)
    (obj : Js.object) :
  p "&"%char = true -> p "="%char = true ->
  (forall s, Bytes.all p (enc s) = true) ->
  Bytes.all p (Fields.serialize enc obj) = true.
Proof.
  intros Hamp Heq Henc. unfold Fields.serialize, Js.join.
  apply all_concat; [simpl; now rewrite Hamp |].
  apply Forall_forall. intros f Hf.
  apply in_map_iff in Hf as [q [<- _]]. unfold Fields.field.
  rewrite !all_app, !Henc. simpl. now rewrite Heq.
Qed.

End BytesFacts.

(** The query string of a redirect URL has only letters, digits, the
    marks [! ' ( ) * - . _ ~], [%], [&] and [=]: whatever the callback,
    clientId, scopes and state contain, it has no space, no [#], no [?],
    no [/] and no [+], so nothing in a value can end the query or be
    read as another parameter. *)
Theorem redirect_query_bytes (this : SingleSignOn)
    (state : option string) (given : option Scopes) :
  exists qs,
    url_query this (getRedirectUrl this state given) = Some qs
    /\ Bytes.all Bytes.query_byte qs = true
    /\ Js.contains " " qs = false
    /\ Js.contains "#" qs = false
    /\ Js.contains "?" qs = false
    /\ Js.contains "/" qs = false
    /\ Js.contains "+" qs = false.
Proof.
  eexists. split; [apply url_query_redirect |].
  assert (H : Bytes.all Bytes.query_byte
                (QueryString.stringify (redirect_query this state given)) = true).
  { apply BytesFacts.serialize_bytes;
      [reflexivity | reflexivity | apply BytesFacts.escape_query_bytes]. }
  split; [exact H |].
  repeat split; apply (BytesFacts.all_excludes Bytes.query_byte); auto.
Qed.


(** ** Default scopes (constructor, lines 42-45) *)

Lemma constructor_scopes name version homepage process_version
    url_parse_hostname bent_refuses id secret callback opts this :
  constructor name version homepage process_version
    url_parse_hostname bent_refuses id secret callback opts = Ok this ->
  this.(scopes)
  = match SingleSignOnOptions.scopes opts with
    | Some (ScopeString s) => if s =? "" then None else Some (Js.split " " s)
    | Some (ScopeArray a) => Some a
    | None => None
    end.
Proof.
  unfold constructor, bent.
  destruct (url_parse_hostname _) as [hostname | e]; cbn [bind]; [| discriminate].
  destruct (bent_refuses _ _ _) as [e |]; cbn [bind]; [discriminate |].
  intros H. injection H as <-. cbn [scopes].
  destruct (SingleSignOnOptions.scopes opts) as [[s | a] |]; try reflexivity.
  cbn [when_truthy truthy_scopes]. unfold Js.truthy.
  destruct (s =? ""); reflexivity.
Qed.

Lemma split_pieces_without (sep : ascii) (s : string) :
  Forall (fun p => Js.contains sep p = false) (Js.split sep s).
Proof.
  induction s as [| c s IH]; simpl; [repeat constructor |].
  destruct (Ascii.eqb c sep) eqn:Hc; [now constructor |].
  destruct (Js.split sep s) as [| p ps]; [repeat constructor; simpl; now rewrite Hc |].
  inversion IH as [| ? ? Hp Hps]; subst.
  constructor; [simpl; now rewrite Hc, Hp | assumption].
Qed.

Lemma split_length (sep : ascii) (s : string) :
  List.length (Js.split sep s) = S (Bytes.count sep s).
Proof.
  induction s as [| c s IH]; simpl; [reflexivity |].
  destruct (Ascii.eqb c sep); simpl; [now rewrite IH |].
  destruct (Js.split sep s); simpl in *; [discriminate | assumption].
Qed.

(** Default scopes given as a non-empty string are stored as its pieces
    between single spaces: one piece more than the string has spaces
    (two spaces in a row, or a space at either end, give an empty piece),
    no piece has a space, and the pieces joined with spaces are the
    string. *)
Theorem default_scopes_of_string
    name version homepage process_version url_parse_hostname bent_refuses
    id secret callback endpoint userAgent (s : string) this :
  s <> "" ->
  constructor name version homepage process_version
    url_parse_hostname bent_refuses id secret callback
    {| SingleSignOnOptions.endpoint := endpoint;
       SingleSignOnOptions.userAgent := userAgent;
       SingleSignOnOptions.scopes := Some (ScopeString s) |} = Ok this ->
  exists tokens,
    this.(scopes) = Some tokens
    /\ List.length tokens = S (Bytes.count " " s)
    /\ Forall (fun token => Js.contains " " token = false) tokens
    /\ Js.join " " tokens = s.
Proof.
  intros Hs H. apply constructor_scopes in H.
  cbn [SingleSignOnOptions.scopes] in H.
  destruct (String.eqb_spec s "") as [E | _]; [contradiction |].
  exists (Js.split " " s). split; [exact H |]. split; [apply split_length |].
  split; [apply split_pieces_without | apply (JsFacts.join_split " " s)].
Qed.

Lemma default_scopes_of_string_witness :
  exists tokens,
    Some (Js.split " " " a  b") = Some tokens
    /\ List.length tokens = S (Bytes.count " " " a  b")
    /\ Forall (fun token => Js.contains " " token = false) tokens
    /\ Js.join " " tokens = " a  b".
Proof.
  pose proof (default_scopes_of_string
                "eve-sso" "2.0.0" "https://github.com/LakMoore/eve-sso" "v18.0.0"
                (fun _ => Ok (Some "login.eveonline.com")) (fun _ _ _ => None)
                "abc" "xyz" "https://app.example/cb" None None " a  b"
                {| clientId := "abc"; callbackUri := "https://app.example/cb";
                   endpoint := "https://login.eveonline.com";
                   userAgent := "eve-sso@2.0.0 - nodejs@v18.0.0 - https://github.com/LakMoore/eve-sso";
                   scopes := Some (Js.split " " " a  b"); secretKey := "xyz";
                   authorization := "YWJjOnh5eg==";
                   host := Some "login.eveonline.com";
                   request := {| baseurl := "https://login.eveonline.com";
                                 encoding := Some "json"; method := "POST" |} |}
                ltac:(discriminate) eq_refl) as H.
  exact H.
Defined.

(** With no scopes argument, the URL of a constructed client carries the
    construction-time scopes as they were given: the string itself
    (whatever its spacing), the sequence joined with single spaces, or
    the empty value when none were given. *)
Theorem default_scopes_in_redirect_url
    name version homepage process_version url_parse_hostname bent_refuses
    id secret callback opts this (state : option string) :
  constructor name version homepage process_version
    url_parse_hostname bent_refuses id secret callback opts = Ok this ->
  url_param this "scope" (getRedirectUrl this state None)
  = Some match SingleSignOnOptions.scopes opts with
         | Some given => scope_text given
         | None => ""
         end.
Proof.
  intros H. apply constructor_scopes in H.
  rewrite url_param_redirect.
  assert (Hscope : Js.get "scope" (redirect_query this state None)
                   = Some (redirect_scope this None)).
  { unfold redirect_query. destruct (when_truthy Js.truthy state); reflexivity. }
  rewrite Hscope. f_equal. unfold redirect_scope. cbn [when_truthy]. rewrite H.
  destruct (SingleSignOnOptions.scopes opts) as [[s | a] |]; try reflexivity.
  destruct (String.eqb_spec s "") as [E | _]; [rewrite E; reflexivity |].
  cbn [scope_text]. apply (JsFacts.join_split " " s).
Qed.

Lemma default_scopes_in_redirect_url_witness :
  url_param client_with_defaults "scope"
    (getRedirectUrl client_with_defaults (Some "s1") None)
  = Some (scope_text (ScopeArray ["publicData"])).
Proof.
  apply (default_scopes_in_redirect_url
           "eve-sso" "2.0.0" "https://github.com/LakMoore/eve-sso" "v18.0.0"
           (fun _ => Ok (Some "login.eveonline.com")) (fun _ _ _ => None)
           "abc" "xyz" "https://app.example/cb"
           {| SingleSignOnOptions.endpoint := None;
              SingleSignOnOptions.userAgent := Some "eve-sso";
              SingleSignOnOptions.scopes := Some (ScopeArray ["publicData"]) |}).
  reflexivity.
Defined.

(** A non-empty sequence of scope tokens, none with a space in it, can be
    read back from what is sent: the scope parameter of the redirect URL,
    and the scope field of the refresh body, split on spaces, are the
    sequence. *)
Theorem scope_tokens_recovered (this : SingleSignOn) (state : option string)
    (token : string) (network : Call -> Result Json) (tokens : list string) :
  tokens <> [] ->
  Forall (fun t => Js.contains " " t = false) tokens ->
  (exists v,
      url_param this "scope" (getRedirectUrl this state (Some (ScopeArray tokens)))
      = Some v
      /\ Js.split " " v = tokens)
  /\ (exists c v,
         calls network (refreshToken this token (Some (ScopeArray tokens))) = [c]
         /\ body_field "scope" c = Some v
         /\ Js.split " " v = tokens).
Proof.
  intros Hne Hall. split.
  - exists (Js.join " " tokens). split; [| now apply JsFacts.split_join].
    rewrite url_param_redirect. unfold redirect_query.
    destruct (when_truthy Js.truthy state); reflexivity.
  - eexists. exists (Js.join " " tokens).
    split; [apply refreshToken_calls |].
    split; [| now apply JsFacts.split_join].
    unfold body_field. cbn [call_body].
    now rewrite FormUrlEncodedFacts.form_parse_encoded.
Qed.

Lemma scope_tokens_recovered_witness :
  (exists v,
      url_param client_with_defaults "scope"
        (getRedirectUrl client_with_defaults None
           (Some (ScopeArray ["esi-mail.read_mail.v1"; "publicData"])))
      = Some v
      /\ Js.split " " v = ["esi-mail.read_mail.v1"; "publicData"])
  /\ (exists c v,
         calls (fun _ => Ok (JsonValue "{}"))
           (refreshToken client_with_defaults "RTOKEN"
              (Some (ScopeArray ["esi-mail.read_mail.v1"; "publicData"]))) = [c]
         /\ body_field "scope" c = Some v
         /\ Js.split " " v = ["esi-mail.read_mail.v1"; "publicData"]).
Proof.
  apply scope_tokens_recovered; [discriminate | repeat constructor].
Defined.

Lemma escape_app (a b : string) :
  QueryString.escape (a ++ b) = QueryString.escape a ++ QueryString.escape b.
Proof.
  unfold QueryString.escape. induction a as [| c a IH]; [reflexivity |].
  cbn [append Percent.encode]. rewrite IH.
  destruct (QueryString.unreserved c); [reflexivity |].
  now rewrite append_assoc3.
Qed.

Lemma escape_unreserved (s : string) :
  Bytes.all QueryString.unreserved s = true -> QueryString.escape s = s.
Proof.
  unfold QueryString.escape. induction s as [| c s IH]; [reflexivity |].
  cbn [Bytes.all Percent.encode]. intros H. apply andb_prop in H as [Hc Hs].
  now rewrite Hc, (IH Hs).
Qed.

Lemma escape_join_unreserved (tokens : list string) :
  Forall (fun t => Bytes.all QueryString.unreserved t = true) tokens ->
  QueryString.escape (Js.join " " tokens) = Js.join "%20" tokens.
Proof.
  unfold Js.join. induction 1 as [| t l Ht Hl IH]; [reflexivity |].
  destruct l as [| u l]; [now apply escape_unreserved |].
  rewrite !JsFacts.concat_cons_cons, !escape_app, IH.
  now rewrite (escape_unreserved t Ht).
Qed.

(** Scope tokens made of letters, digits and [! ' ( ) * - . _ ~] only,
    passed as a sequence, appear in the redirect URL as they are, joined
    with [%20]. *)
Theorem unreserved_scope_tokens_verbatim (this : SingleSignOn)
    (state : option string) (tokens : list string) :
  Forall (fun t => Bytes.all QueryString.unreserved t = true) tokens ->
  getRedirectUrl this state (Some (ScopeArray tokens))
  = this.(endpoint) ++ "/v2/oauth/authorize?"
      ++ "response_type=code"
      ++ "&redirect_uri=" ++ QueryString.escape this.(callbackUri)
      ++ "&client_id=" ++ QueryString.escape this.(clientId)
      ++ "&scope=" ++ Js.join "%20" tokens
      ++ match state with
         | Some s => if s =? "" then "" else "&state=" ++ QueryString.escape s
         | None => ""
         end.
Proof.
  intros H. unfold getRedirectUrl. rewrite stringify_redirect_query.
  unfold redirect_scope. cbn [when_truthy truthy_scopes scope_text].
  rewrite (escape_join_unreserved tokens H).
  destruct state as [s |]; [| reflexivity].
  cbn [when_truthy]. unfold Js.truthy. destruct (s =? ""); reflexivity.
Qed.

Lemma unreserved_scope_tokens_verbatim_witness :
  getRedirectUrl client_with_defaults (Some "s1")
    (Some (ScopeArray ["esi-mail.read_mail.v1"; "publicData"]))
  = client_with_defaults.(endpoint) ++ "/v2/oauth/authorize?"
      ++ "response_type=code"
      ++ "&redirect_uri=" ++ QueryString.escape client_with_defaults.(callbackUri)
      ++ "&client_id=" ++ QueryString.escape client_with_defaults.(clientId)
      ++ "&scope=" ++ Js.join "%20" ["esi-mail.read_mail.v1"; "publicData"]
      ++ "&state=" ++ QueryString.escape "s1".
Proof.
  apply (unreserved_scope_tokens_verbatim client_with_defaults (Some "s1")
           ["esi-mail.read_mail.v1"; "publicData"]).
  repeat constructor.
Defined.

(** ** Construction (lines 29-50) and the token requests (lines 87-124) *)

Lemma or_else_not_empty (x : option string) (d : string) :
  d <> "" -> or_else x d <> "".
Proof.
  intros Hd. unfold or_else, when_truthy, Js.truthy.
  destruct x as [s |]; [| exact Hd].
  destruct (String.eqb_spec s ""); [exact Hd | assumption].
Qed.

Lemma append_not_empty (a b : string) : b <> "" -> a ++ b <> "".
Proof. destruct a; [trivial | discriminate]. Qed.

(** A constructed client never has an empty endpoint or an empty user
    agent: an empty string given for either is replaced by the default,
    as an omitted one is.  The base URL of its request function is its
    endpoint when the endpoint starts with [http:] or [https:], and is
    empty otherwise. *)
Theorem constructed_endpoint_and_agent
    name version homepage process_version url_parse_hostname bent_refuses
    id secret callback opts this :
  constructor name version homepage process_version
    url_parse_hostname bent_refuses id secret callback opts = Ok this ->
  this.(endpoint) <> ""
  /\ this.(userAgent) <> ""
  /\ this.(request).(baseurl)
     = (if is_base_url this.(endpoint) then this.(endpoint) else "")
  /\ (SingleSignOnOptions.endpoint opts = Some "" ->
      this.(endpoint) = "https://login.eveonline.com"
      /\ this.(request).(baseurl) = "https://login.eveonline.com")
  /\ (SingleSignOnOptions.userAgent opts = Some "" ->
      this.(userAgent)
      = name ++ "@" ++ version ++ " - nodejs@" ++ process_version
             ++ " - " ++ homepage).
Proof.
  intros H.
  apply constructor_ok in H
    as (_ & _ & _ & _ & _ & _ & Hend & Hagent & _ & _ & Hreq).
  rewrite Hend, Hagent, Hreq. cbn [baseurl]. repeat split.
  - apply or_else_not_empty. discriminate.
  - apply or_else_not_empty. apply append_not_empty. discriminate.
  - rewrite H. reflexivity.
  - rewrite H. reflexivity.
  - intros ->. reflexivity.
Qed.

Lemma constructed_endpoint_and_agent_witness :
  exists this,
    constructor "" "" "" "" (fun _ => Ok None) (fun _ _ _ => None) "" "" ""
      {| SingleSignOnOptions.endpoint := Some "";
         SingleSignOnOptions.userAgent := Some "";
         SingleSignOnOptions.scopes := None |} = Ok this
    /\ this.(endpoint) <> ""
    /\ this.(userAgent) <> ""
    /\ this.(endpoint) = "https://login.eveonline.com"
    /\ this.(request).(baseurl) = "https://login.eveonline.com"
    /\ this.(userAgent) = "@ - nodejs@ - ".
Proof.
  eexists. split; [reflexivity |].
  destruct (constructed_endpoint_and_agent
              "" "" "" "" (fun _ => Ok None) (fun _ _ _ => None) "" "" ""
              {| SingleSignOnOptions.endpoint := Some "";
                 SingleSignOnOptions.userAgent := Some "";
                 SingleSignOnOptions.scopes := None |} _ eq_refl)
    as (He & Ha & _ & Hde & Hda).
  split; [exact He |]. split; [exact Ha |].
  split; [exact (proj1 (Hde eq_refl)) |].
  split; [exact (proj2 (Hde eq_refl)) | exact (Hda eq_refl)].
Defined.

Lemma all_utf8_ill_formed (a : list Text) (replaced : string) :
  In (IllFormed replaced) a -> all_utf8 a = None.
Proof.
  induction a as [| t a IH]; [contradiction |].
  intros [-> | Hin]; [reflexivity |].
  cbn [all_utf8]. rewrite (IH Hin). now destruct (utf8_of t).
Qed.





Lemma digit_base64_byte (n : N) :
  (n < 64)%N -> Bytes.base64_byte (Base64.digit n) = true.
Proof.
  revert n. apply Base64DecodingFacts.below_64. intros i Hi.
  do 64 (destruct i as [| i]; [reflexivity |]). lia.
Qed.

Lemma encode_base64_bytes (s : string) :
  Bytes.all Bytes.base64_byte (Base64.encode s) = true.
Proof.
  induction s as [| a | a b | a b c s IH] using Base64DecodingFacts.by_triples;
    [reflexivity | ..];
    cbn [Base64.encode]; cbv zeta; rewrite !Base64DecodingFacts.sextet_six;
    cbn [Bytes.all];
    rewrite !digit_base64_byte by apply Base64DecodingFacts.six_below;
    [reflexivity | reflexivity | exact IH].
Qed.

(** Whatever bytes the clientId and the secretKey have, the Authorization
    header of a constructed client is ["Basic "] followed by letters,
    digits, [+], [/] and [=] only: it has no line break and no other
    control byte. *)
Theorem authorization_header_bytes
    name version homepage process_version url_parse_hostname bent_refuses
    id secret callback opts this :
  constructor name version homepage process_version
    url_parse_hostname bent_refuses id secret callback opts = Ok this ->
  exists credential,
    Bytes.all Bytes.base64_byte credential = true
    /\ Js.contains "010"%char credential = false
    /\ Js.contains "013"%char credential = false
    /\ Js.contains ":"%char credential = false
    /\ forall network t,
         map (fun c => header "Authorization" (call_headers c))
             (calls network (perform this t))
         = [ Some (Some ("Basic " ++ credential)) ].
Proof.
  intros H.
  apply constructor_ok in H as (_ & _ & _ & _ & _ & _ & _ & _ & Hauth & _).
  exists (Base64.encode (id ++ ":" ++ secret)).
  pose proof (encode_base64_bytes (id ++ ":" ++ secret)) as Hall.
  split; [exact Hall |].
  repeat split;
    try (apply (BytesFacts.all_excludes Bytes.base64_byte); [reflexivity | exact Hall]).
  intros network [code | token given]; cbn [perform];
    [rewrite getAccessToken_calls | rewrite refreshToken_calls];
    cbn [map call_headers header String.eqb Ascii.eqb Bool.eqb];
    now rewrite Hauth.
Qed.

Lemma authorization_header_bytes_witness :
  exists credential,
    Bytes.all Bytes.base64_byte credential = true
    /\ Js.contains "010"%char credential = false
    /\ Js.contains "013"%char credential = false
    /\ Js.contains ":"%char credential = false
    /\ forall network t,
         map (fun c => header "Authorization" (call_headers c))
             (calls network (perform client_with_defaults t))
         = [ Some (Some ("Basic " ++ credential)) ].
Proof.
  apply (authorization_header_bytes
           "eve-sso" "2.0.0" "https://github.com/LakMoore/eve-sso" "v18.0.0"
           (fun _ => Ok (Some "login.eveonline.com")) (fun _ _ _ => None)
           "abc" "xyz" "https://app.example/cb"
           {| SingleSignOnOptions.endpoint := None;
              SingleSignOnOptions.userAgent := Some "eve-sso";
              SingleSignOnOptions.scopes := Some (ScopeArray ["publicData"]) |}).
  reflexivity.
Defined.

(** Among clients of one endpoint, the redirect URL tells its ingredients
    apart: two equal URLs were made with the same callback, the same
    clientId, the same resolved scope and the same state (an empty state
    counting as none). *)
Theorem redirect_url_determines_arguments (this other : SingleSignOn)
    (state state' : option string) (given given' : option Scopes) :
  this.(endpoint) = other.(endpoint) ->
  getRedirectUrl this state given = getRedirectUrl other state' given' ->
  this.(callbackUri) = other.(callbackUri)
  /\ this.(clientId) = other.(clientId)
  /\ redirect_scope this given = redirect_scope other given'
  /\ when_truthy Js.truthy state = when_truthy Js.truthy state'.
Proof.
  intros He Hurl.
  pose proof (url_query_redirect this state given) as Hq.
  pose proof (url_query_redirect other state' given') as Hq'.
  unfold url_query in Hq, Hq'. rewrite He, Hurl, Hq' in Hq.
  injection Hq as Hq. apply (f_equal QueryString.parse) in Hq.
  rewrite !QueryStringFacts.parse_stringify in Hq.
  unfold redirect_query in Hq.
  destruct (when_truthy Js.truthy state), (when_truthy Js.truthy state');
    cbn [Js.set String.eqb Ascii.eqb Bool.eqb] in Hq;
    injection Hq; intros; subst; repeat split; congruence.
Qed.

Lemma redirect_url_determines_arguments_witness :
  client_with_defaults.(callbackUri) = client_with_defaults.(callbackUri)
  /\ client_with_defaults.(clientId) = client_with_defaults.(clientId)
  /\ redirect_scope client_with_defaults (Some (ScopeString "a b"))
     = redirect_scope client_with_defaults (Some (ScopeArray ["a"; "b"]))
  /\ when_truthy Js.truthy (Some "") = when_truthy Js.truthy None.
Proof.
  apply (redirect_url_determines_arguments client_with_defaults client_with_defaults
           (Some "") None (Some (ScopeString "a b")) (Some (ScopeArray ["a"; "b"])));
    reflexivity.
Defined.


